(** * Automation scraper (main.py): adapters, aggregator and command-line shell

    A shallow embedding of [src/main.py].  The program talks to three remote
    services and to an operator at a terminal, and it runs on an
    interpreter; all three are inputs here:

    - the network is a [world], a function from the request an adapter sends
      to the [reply] it gets back (a transport failure, or a response with a
      status and the outcomes of decoding its body);
    - the operator is the list of lines waiting on standard input;
    - the [interpreter] says what [int] makes of a line and which values
      standard output can encode.

    A Python string is the list of its code points ([pystr]); the literals
    of the source are ASCII and enter through [lit].  Python exceptions are
    explicit: a computation yields an [outcome], either [Ok v] or [Raise e],
    and [try ... except C] is [try_except].  Coroutines are finite trees of
    suspension points ([task]); the event loop runs one task to completion
    ([run_until_complete]) or interleaves three of them under an arbitrary
    schedule ([gather]). *)

From Stdlib Require Import ZArith NArith PrimFloat Ascii String.
From stdpp Require Import base option list strings.

Set Warnings "-register-all".

Open Scope string_scope.
Open Scope list_scope.
Open Scope nat_scope.

(** ** Strings *)

(** A [str]: its code points, in order.  Slicing, iterating and stripping
    work on code points, as in Python. *)
Definition pystr : Type := list N.

(** An ASCII literal of the source as a [str]. *)
Definition lit (s : string) : pystr := N_of_ascii <$> list_ascii_of_string s.

(** ** Exceptions *)

(** The exceptions that the network calls, the body decoding, the extraction
    code and the console can raise.  Every one of them derives from Python's
    [Exception]; [JSONDecodeError], [UnicodeDecodeError] and
    [UnicodeEncodeError] also derive from [ValueError].  Interrupts
    delivered from outside the program (KeyboardInterrupt, task
    cancellation) are not outcomes of any call made here and are left out. *)
Inductive exn : Type :=
  | ClientError (msg : string)      (* aiohttp: connection, DNS, TLS, payload *)
  | TimeoutError                    (* asyncio.TimeoutError *)
  | ContentTypeError (msg : string) (* aiohttp: response.json() on a non-JSON body *)
  | JSONDecodeError (msg : string)
  | UnicodeDecodeError (msg : string)
  | UnicodeEncodeError              (* print: text the output stream cannot encode *)
  | ParserError (msg : string)      (* bs4: markup rejected by the parser *)
  | IndexError
  | KeyError (key : pystr)
  | TypeError
  | AttributeError (attr : string)
  | ValueError
  | EOFError.

Inductive exn_class : Type := Exception_ | ValueError_.

(** [isinstance e C], for the two classes named in an [except] clause. *)
Definition isinstance (e : exn) (C : exn_class) : bool :=
  match C with
  | Exception_ => true
  | ValueError_ =>
      match e with
      | ValueError | JSONDecodeError _ | UnicodeDecodeError _
      | UnicodeEncodeError => true
      | _ => false
      end
  end.

Inductive outcome (A : Type) : Type :=
  | Ok (a : A)
  | Raise (e : exn).
Arguments Ok {A} a.
Arguments Raise {A} e.

(** Sequencing: the first raise ends the computation.  With these instances
    [x ← m; k] is stdpp's notation for it. *)
#[global] Instance outcome_ret : MRet outcome := λ A a, Ok a.
#[global] Instance outcome_bind : MBind outcome := λ A B f m,
  match m with
  | Ok a => f a
  | Raise e => Raise e
  end.

(** [try: body  except C: handler]. *)
Definition try_except {A : Type} (body : outcome A) (C : exn_class)
    (handler : exn → outcome A) : outcome A :=
  match body with
  | Ok a => Ok a
  | Raise e => if isinstance e C then handler e else Raise e
  end.

Definition raised {A : Type} (m : outcome A) : Prop := ∃ e, m = Raise e.

(** ** Python values *)

(** What [json.loads] can build.  A [dict] keeps its keys in insertion order,
    so it is an association list; [json] never produces a repeated key. *)
Inductive pyval : Type :=
  | PNone
  | PBool (b : bool)
  | PInt (n : Z)
  | PFloat (x : float)
  | PStr (s : pystr)
  | PList (items : list pyval)
  | PDict (entries : list (pystr * pyval)).

Fixpoint dict_lookup (entries : list (pystr * pyval)) (key : pystr) : option pyval :=
  match entries with
  | [] => None
  | (k, v) :: rest => if bool_decide (k = key) then Some v else dict_lookup rest key
  end.

(** [v.get(key, dflt)]: only a dict has the method. *)
Definition py_get (v : pyval) (key : pystr) (dflt : pyval) : outcome pyval :=
  match v with
  | PDict entries => Ok (default dflt (dict_lookup entries key))
  | _ => Raise (AttributeError "get")
  end.

(** [v[key]] with a string key. *)
Definition py_getitem (v : pyval) (key : pystr) : outcome pyval :=
  match v with
  | PDict entries =>
      match dict_lookup entries key with
      | Some x => Ok x
      | None => Raise (KeyError key)
      end
  | _ => Raise TypeError
  end.

(** [v[:n]]: lists and strings are sliceable, a string by code points; on
    every other value the subscript raises (a dict rejects the slice as a
    key). *)
Definition py_slice_to (v : pyval) (n : nat) : outcome pyval :=
  match v with
  | PList items => Ok (PList (take n items))
  | PStr s => Ok (PStr (take n s))
  | _ => Raise TypeError
  end.

(** The one-character strings of a string. *)
Definition string_chars (s : pystr) : list pyval := (λ c, PStr [c]) <$> s.

(** The items a [for] loop over [v] visits. *)
Definition py_iter (v : pyval) : outcome (list pyval) :=
  match v with
  | PList items => Ok items
  | PStr s => Ok (string_chars s)
  | PDict entries => Ok ((λ kv, PStr kv.1) <$> entries)
  | _ => Raise TypeError
  end.

(** [seq[i]] on a Python list, for an index [i >= 0]. *)
Definition list_getitem {A : Type} (l : list A) (i : nat) : outcome A :=
  match l !! i with
  | Some x => Ok x
  | None => Raise IndexError
  end.

(** Unicode whitespace, the characters [str.strip()] removes: those of
    bidirectional type WS, B or S and of category Zs. *)
Definition py_isspace (c : N) : bool :=
  ((9 <=? c) && (c <=? 13) || (28 <=? c) && (c <=? 32)
   || (c =? 133) || (c =? 160) || (c =? 5760)
   || (8192 <=? c) && (c <=? 8202)
   || (c =? 8232) || (c =? 8233) || (c =? 8239) || (c =? 8287)
   || (c =? 12288))%N.

Fixpoint lstrip (s : pystr) : pystr :=
  match s with
  | c :: s' => if py_isspace c then lstrip s' else s
  | [] => []
  end.

(** [s.strip()]. *)
Definition str_strip (s : pystr) : pystr :=
  reverse (lstrip (reverse (lstrip s))).

(** ** Markup *)

(** The tree BeautifulSoup builds from a page: text strings and elements.
    The document itself is the element named "[document]". *)
Inductive node : Type :=
  | Text (s : pystr)
  | Tag (name : pystr) (contents : list node).

(** All nodes below [n], in document order. *)
Fixpoint descendants (n : node) : list node :=
  match n with
  | Text _ => []
  | Tag _ contents =>
      (fix walk (l : list node) : list node :=
         match l with
         | [] => []
         | c :: l' => c :: descendants c ++ walk l'
         end) contents
  end.

Definition is_tag (name : pystr) (n : node) : bool :=
  match n with
  | Text _ => false
  | Tag t _ => bool_decide (t = name)
  end.

(** [n.find_all(name)]. *)
Definition find_all (name : pystr) (n : node) : list node :=
  List.filter (is_tag name) (descendants n).

(** [n.find(name)]: the first match, or None. *)
Definition find (name : pystr) (n : node) : option node :=
  head (find_all name n).

(** [n.text]: the strings below [n], concatenated. *)
Fixpoint text (n : node) : pystr :=
  match n with
  | Text s => s
  | Tag _ contents =>
      (fix walk (l : list node) : pystr :=
         match l with
         | [] => []
         | c :: l' => text c ++ walk l'
         end) contents
  end.

(** ** The network *)

Record request : Type := GET {
  url : string;
  params : list (string * pystr)
}.

(** What an adapter sees of a response: the status line and the outcome of
    each way of decoding the body.  [markup] is [response.text()] handed to
    [BeautifulSoup(html, 'html.parser')]; [json] is [response.json()]. *)
Record response : Type := Response {
  status : Z;
  markup : outcome node;
  json : outcome pyval
}.

(** [session.get(...)] either raises or yields a response. *)
Definition reply : Type := outcome response.

Definition world : Type := request → reply.

(** ** Coroutines and the event loop *)

Record PriceQuote : Type := Quote { name : pystr; price : pystr }.

(** The coroutine functions of the program, with the arguments they run with. *)
Inductive call : Type :=
  | fetch_crypto_prices_
  | get_latest_news_ (topic lang_code : pystr)
  | get_latest_weather_ (location : pystr)
  | fetch_all_data_ (topic location : pystr).

(** What the program does that can be observed from outside. *)
Inductive fragment : Type :=
  | Lit (s : string)       (* literal text of the source *)
  | Str (v : pyval).       (* str(v), as an f-string or print renders v *)

Inductive event : Type :=
  | Entered (c : call)              (* the body of a coroutine starts *)
  | Sent (rq : request)             (* an HTTP request goes out *)
  | Printed (line : list fragment)  (* print(...) *)
  | Prompted (prompt : string).     (* input(prompt) shows its prompt *)

(** A coroutine: it finishes, or marks that its body has started, or is
    suspended on a request until the reply resumes it. *)
Inductive task (A : Type) : Type :=
  | Done (r : outcome A)
  | Enter (c : call) (k : task A)
  | Await (rq : request) (k : reply → task A).
Arguments Done {A} r.
Arguments Enter {A} c k.
Arguments Await {A} rq k.

(** [loop.run_until_complete(t)]: the events of the run and its outcome. *)
Fixpoint run_until_complete {A : Type} (w : world) (t : task A)
    : list event * outcome A :=
  match t with
  | Done r => ([], r)
  | Enter c k =>
      let (tr, r) := run_until_complete w k in (Entered c :: tr, r)
  | Await rq k =>
      let (tr, r) := run_until_complete w (k (w rq)) in (Sent rq :: tr, r)
  end.

Definition result {A : Type} (w : world) (t : task A) : outcome A :=
  (run_until_complete w t).2.

(** One step of a coroutine that is not finished. *)
Definition step {A : Type} (w : world) (t : task A) : option (event * task A) :=
  match t with
  | Done _ => None
  | Enter c k => Some (Entered c, k)
  | Await rq k => Some (Sent rq, k (w rq))
  end.

Definition finished {A : Type} (t : task A) : bool :=
  match t with Done _ => true | _ => false end.

(** ** CryptoScraper *)

Definition COINMARKETCAP_URL : string := "https://coinmarketcap.com/".

(** [cols[i].find('a').text if cols[i].find('a') else 'N/A'].  A bs4 element
    is always truthy, so the test only asks whether a link was found. *)
Definition link_text_or_NA (cols : list node) (i : nat) : outcome pystr :=
  col ← list_getitem cols i;
  match find (lit "a") col with
  | Some a => Ok (text a)
  | None => Ok (lit "N/A")
  end.

(** The [for row in table_rows] loop, with the list it appends to. *)
Fixpoint extract_rows (table_rows : list node) (crypto_prices : list PriceQuote)
    : outcome (list PriceQuote) :=
  match table_rows with
  | [] => Ok crypto_prices
  | row :: rest =>
      let cols := find_all (lit "td") row in
      if bool_decide (0 < length cols) then
        name ← link_text_or_NA cols 2;
        price ← link_text_or_NA cols 3;
        extract_rows rest (crypto_prices ++ [Quote name price])
      else extract_rows rest crypto_prices
  end.

(** The body of the [try] block, from the reply to the request on. *)
Definition crypto_try (rp : reply) : outcome (list PriceQuote) :=
  response ← rp;
  soup ← markup response;
  let table_rows := take 5 (find_all (lit "tr") soup) in
  extract_rows table_rows [].

Definition crypto_request : request := GET COINMARKETCAP_URL [].

Definition fetch_crypto_prices : task (list PriceQuote) :=
  Enter fetch_crypto_prices_
    (Await crypto_request (λ rp,
       Done (try_except (crypto_try rp) Exception_ (λ _, Ok [])))).

(** [fetch_crypto_news] (a plain function, not a coroutine: the request goes
    out when it is called). *)
Definition news_url : string := "https://cryptonews.com/".

Definition crypto_news_request : request := GET news_url [].

(** The body of its [try] block, from the reply to [requests.get] on;
    [markup] is [response.text] handed to BeautifulSoup. *)
Definition crypto_news_try (rp : reply) : outcome (list pystr) :=
  response ← rp;
  soup ← markup response;
  Ok ((λ headline, str_strip (text headline))
        <$> take 5 (find_all (lit "h4") soup)).

Definition fetch_crypto_news (w : world) : list event * outcome (list pystr) :=
  ([Sent crypto_news_request],
   try_except (crypto_news_try (w crypto_news_request)) Exception_ (λ _, Ok [])).

(** ** NewsScraper *)

Definition NEWS_API_URL : string := "https://newsapi.org/v2/everything".
Definition NEWS_API_KEY : string := "bec47ecaa8284585b971192be77b8312".

Definition news_request (topic lang_code : pystr) : request :=
  GET NEWS_API_URL
      [("q", topic); ("language", lang_code); ("apiKey", lit NEWS_API_KEY)].

Definition news_try (rp : reply) : outcome pyval :=
  response ← rp;
  data ← json response;
  found ← py_get data (lit "articles") (PList []);
  py_slice_to found 5.

(** An argument left out of the call is [None] and takes its default. *)
Definition get_latest_news (topic lang_code : option pystr) : task pyval :=
  let topic := default (lit "technology") topic in
  let lang_code := default (lit "en") lang_code in
  Enter (get_latest_news_ topic lang_code)
    (Await (news_request topic lang_code) (λ rp,
       Done (try_except (news_try rp) Exception_ (λ _, Ok (PList []))))).

(** ** WeatherScraper *)

Definition WEATHER_API_URL : string :=
  "https://api.openweathermap.org/data/2.5/weather".
Definition WEATHER_API_KEY : string := "59362194dc9f35a6552480d56ffb1a92".

Definition weather_request (location : pystr) : request :=
  GET WEATHER_API_URL
      [("q", location); ("appid", lit WEATHER_API_KEY); ("units", lit "metric")].

(** On a status other than 200 the error line formats [data.get('message')]
    before the empty dict is returned. *)
Definition weather_try (rp : reply) : outcome pyval :=
  response ← rp;
  data ← json response;
  if bool_decide (status response = 200%Z) then Ok data
  else (_ ← py_get data (lit "message") PNone; Ok (PDict [])).

Definition get_latest_weather (location : option pystr) : task pyval :=
  let location := default (lit "Addis Ababa") location in
  Enter (get_latest_weather_ location)
    (Await (weather_request location) (λ rp,
       Done (try_except (weather_try rp) Exception_ (λ _, Ok (PDict []))))).
(** ** asyncio.gather *)

(** [gather] is settled once one of its tasks has raised (the exception is
    handed to the awaiting caller at once) or all of them have returned. *)
Definition settled {A B C : Type} (ta : task A) (tb : task B) (tc : task C)
    : option (outcome (A * B * C)) :=
  match ta, tb, tc with
  | Done (Raise e), _, _ => Some (Raise e)
  | _, Done (Raise e), _ => Some (Raise e)
  | _, _, Done (Raise e) => Some (Raise e)
  | Done (Ok a), Done (Ok b), Done (Ok c) => Some (Ok (a, b, c))
  | _, _, _ => None
  end.

(** The tasks (numbered 0, 1, 2) that can still take a step. *)
Definition pending {A B C : Type} (ta : task A) (tb : task B) (tc : task C)
    : list nat :=
  (if finished ta then [] else [0]) ++
  (if finished tb then [] else [1]) ++
  (if finished tc then [] else [2]).

(** The event loop runs the three tasks interleaved.  Which pending task
    goes next depends on the timing of the network; [sched] lists those
    decisions, its head selecting among the pending tasks.  The loop yields
    nothing while [gather] is unsettled and no decision is left. *)
Fixpoint gather {A B C : Type} (w : world) (sched : list nat)
    (ta : task A) (tb : task B) (tc : task C)
    : option (list event * outcome (A * B * C)) :=
  match settled ta tb tc with
  | Some r => Some ([], r)
  | None =>
      match sched with
      | [] => None
      | n :: sched' =>
          let ready := pending ta tb tc in
          match ready !! (n mod length ready) with
          | Some 0 =>
              '(ev, ta') ← step w ta;
              '(tr, r) ← gather w sched' ta' tb tc;
              Some (ev :: tr, r)
          | Some 1 =>
              '(ev, tb') ← step w tb;
              '(tr, r) ← gather w sched' ta tb' tc;
              Some (ev :: tr, r)
          | Some _ =>
              '(ev, tc') ← step w tc;
              '(tr, r) ← gather w sched' ta tb tc';
              Some (ev :: tr, r)
          | None => None
          end
      end
  end.

(** ** AutomationScraper *)

Record AggregateResult : Type := Aggregate {
  crypto_prices : list PriceQuote;
  news_articles : pyval;
  weather_data : pyval
}.

(** [fetch_all_data] under an event loop that follows [sched]. *)
Definition fetch_all_data (topic location : option pystr)
    (w : world) (sched : list nat)
    : option (list event * outcome AggregateResult) :=
  let topic := default (lit "technology") topic in
  let location := default (lit "Addis Ababa") location in
  let crypto_prices_task := fetch_crypto_prices in
  let news_task := get_latest_news (Some topic) None in
  let weather_task := get_latest_weather (Some location) in
  '(tr, gathered) ← gather w sched crypto_prices_task news_task weather_task;
  Some (Entered (fetch_all_data_ topic location) :: tr,
        '(crypto_prices, news_articles, weather_data) ← gathered;
        Ok (Aggregate crypto_prices news_articles weather_data)).


(** ** The interpreter and the console *)

(** What the program takes from the interpreter it runs on.  [int_of s] is
    what [int(s)] returns, [None] when it raises (on a string [int] raises
    nothing but [ValueError]).  [writable v] tells whether [str(v)] can be
    encoded for standard output; [print] raises [UnicodeEncodeError] when it
    cannot.  Both depend on the interpreter's version and on the terminal,
    and the program is verified for every such pair. *)
Record interpreter : Type := Interpreter {
  int_of : pystr → option Z;
  writable : pyval → bool
}.

(** [int(s)]. *)
Definition py_int (py : interpreter) (s : pystr) : outcome Z :=
  match int_of py s with
  | Some n => Ok n
  | None => Raise ValueError
  end.

(** The terminal: the lines the operator has typed ahead, and everything the
    program has done so far that can be observed. *)
Record console : Type := Console {
  stdin : list pystr;
  trace : list event
}.

Definition emit (evs : list event) (c : console) : console :=
  Console (stdin c) (trace c ++ evs).

(** A synchronous computation at the console.  What was printed before an
    exception stays printed. *)
Definition shell (A : Type) : Type := console → outcome A * console.

#[global] Instance shell_ret : MRet shell := λ A a c, (Ok a, c).
#[global] Instance shell_bind : MBind shell := λ A B f m c,
  match m c with
  | (Ok a, c') => f a c'
  | (Raise e, c') => (Raise e, c')
  end.

Definition lift {A : Type} (r : outcome A) : shell A := λ c, (r, c).

(** The literal text of the source is ASCII, which every output stream
    encodes; a value is written only if the stream can encode it. *)
Definition fragment_writable (py : interpreter) (f : fragment) : bool :=
  match f with
  | Lit _ => true
  | Str v => writable py v
  end.

(** [print(line)]: the line is encoded as a whole, so either all of it is
    written or the call raises with nothing written. *)
Definition print (py : interpreter) (line : list fragment) : shell () :=
  λ c,
    if forallb (fragment_writable py) line
    then (Ok (), emit [Printed line] c)
    else (Raise UnicodeEncodeError, c).

(** [input(prompt)]: the prompt is shown, then a line is read;
    at end of input it raises [EOFError]. *)
Definition input (prompt : string) : shell pystr :=
  λ c,
    match stdin c with
    | line :: rest => (Ok line, Console rest (trace c ++ [Prompted prompt]))
    | [] => (Raise EOFError, emit [Prompted prompt] c)
    end.

(** [asyncio.get_event_loop().run_until_complete(t)]. *)
Definition complete {A : Type} (w : world) (t : task A) : shell A :=
  λ c, let (tr, r) := run_until_complete w t in (r, emit tr c).

(** [for x in items: body]. *)
Fixpoint for_each {A : Type} (items : list A) (body : A → shell ()) : shell () :=
  match items with
  | [] => mret ()
  | x :: rest => (body x ≫= λ _, for_each rest body)
  end.

(** [try: x = body  except C: handler; return] followed by [rest]. *)
Definition try_or_return {A : Type} (body : shell A) (C : exn_class)
    (handler : shell ()) (rest : A → shell ()) : shell () :=
  λ c,
    match body c with
    | (Ok a, c') => rest a c'
    | (Raise e, c') => if isinstance e C then handler c' else (Raise e, c')
    end.

Definition nl : string := String (ascii_of_nat 10) "".

Definition banner : list event :=
  [ Printed [Lit "Welcome to the Automation Scraper!"];
    Printed [Lit "Select an option:"];
    Printed [Lit "1. Fetch Cryptocurrency Data"];
    Printed [Lit "2. Fetch Latest News"];
    Printed [Lit "3. Fetch Weather Data"] ].

Definition menu_prompt : string := "Enter your choice (1-3): ".
Definition topic_prompt : string :=
  "Enter the news topic (e.g., technology, sports): ".
Definition location_prompt : string :=
  "Enter the location for weather (e.g., Addis Ababa): ".
Definition invalid_input : list fragment :=
  [Lit "Invalid input. Please enter a number between 1 and 3."].
Definition invalid_option : list fragment :=
  [Lit "Invalid option. Please select 1, 2, or 3."].

(** The lines the shell prints for a quote, for the heading of a choice,
    for an article whose title and source name are known, and for the
    weather data. *)
Definition quote_fragments (crypto : PriceQuote) : list fragment :=
  [Str (PStr (name crypto)); Lit ": "; Str (PStr (price crypto))].
Definition crypto_heading : list fragment :=
  [Lit nl; Lit "--- Cryptocurrency Prices ---"].
Definition news_heading (topic : pystr) : list fragment :=
  [Lit nl; Lit "--- Latest News on "; Str (PStr topic); Lit " ---"].
Definition weather_heading (location : pystr) : list fragment :=
  [Lit nl; Lit "--- Weather Data for "; Str (PStr location); Lit " ---"].
Definition article_fragments (title source_name : pyval) : list fragment :=
  [Str title; Lit " - "; Str source_name].

(** [print(f"{crypto['name']}: {crypto['price']}")]. *)
Definition print_quote (py : interpreter) (crypto : PriceQuote) : shell () :=
  print py (quote_fragments crypto).

(** [print(f"{article['title']} - {article['source']['name']}")]: the three
    subscripts are evaluated left to right before anything is printed. *)
Definition print_article (py : interpreter) (article : pyval) : shell () :=
  title ← lift (py_getitem article (lit "title"));
  source ← lift (py_getitem article (lit "source"));
  source_name ← lift (py_getitem source (lit "name"));
  print py (article_fragments title source_name).

(** The [if]/[elif]/[else] chain on the number read at the menu. *)
Definition dispatch (py : interpreter) (w : world) (option : Z) : shell () :=
  if bool_decide (option = 1%Z) then
    crypto_prices ← complete w fetch_crypto_prices;
    print py crypto_heading;;
    for_each crypto_prices (print_quote py)
  else if bool_decide (option = 2%Z) then
    topic ← input topic_prompt;
    news_articles ← complete w (get_latest_news (Some topic) None);
    print py (news_heading topic);;
    articles ← lift (py_iter news_articles);
    for_each articles (print_article py)
  else if bool_decide (option = 3%Z) then
    location ← input location_prompt;
    weather_data ← complete w (get_latest_weather (Some location));
    print py (weather_heading location);;
    print py [Str weather_data]
  else
    print py invalid_option.

Definition run_automation_scraper (py : interpreter) (w : world) : shell () :=
  print py [Lit "Welcome to the Automation Scraper!"];;
  print py [Lit "Select an option:"];;
  print py [Lit "1. Fetch Cryptocurrency Data"];;
  print py [Lit "2. Fetch Latest News"];;
  print py [Lit "3. Fetch Weather Data"];;
  try_or_return (line ← input menu_prompt; lift (py_int py line)) ValueError_
    (print py invalid_input)
    (dispatch py w).

(** A session: the program started on a fresh terminal with [lines] typed. *)
Definition session (py : interpreter) (w : world) (lines : list pystr)
    : outcome () * console :=
  run_automation_scraper py w (Console lines []).

(** ** Reading a run *)

Definition events {A : Type} (w : world) (t : task A) : list event :=
  (run_until_complete w t).1.

(** The coroutines entered, and the requests sent, in a list of events. *)
Definition calls (tr : list event) : list call :=
  omap (λ ev, match ev with Entered c => Some c | _ => None end) tr.

Definition requests (tr : list event) : list request :=
  omap (λ ev, match ev with Sent rq => Some rq | _ => None end) tr.

(** The request each coroutine of an adapter sends. *)
Definition adapter_request (c : call) : list request :=
  match c with
  | fetch_crypto_prices_ => [crypto_request]
  | get_latest_news_ topic lang_code => [news_request topic lang_code]
  | get_latest_weather_ location => [weather_request location]
  | fetch_all_data_ _ _ => []
  end.

(** ** The extraction, as the specification words it *)

(** A field is the text of the link nested in its column, or "N/A" without
    one; a row with no column gives nothing; otherwise the name comes from
    the column at index 2 and the price from the column at index 3. *)
Definition spec_field (col : node) : pystr :=
  match find (lit "a") col with
  | Some link => text link
  | None => lit "N/A"
  end.

Definition spec_row (row : node) : list PriceQuote :=
  match find_all (lit "td") row !! 2, find_all (lit "td") row !! 3 with
  | Some c2, Some c3 => [Quote (spec_field c2) (spec_field c3)]
  | _, _ => []
  end.

Definition well_formed (row : node) : Prop :=
  4 ≤ length (find_all (lit "td") row).

(** A row with a column but fewer than four. *)
Definition short_row (row : node) : bool :=
  bool_decide (0 < length (find_all (lit "td") row) < 4).

(** A value has a key when it is a dict that maps it. *)
Definition has_key (v : pyval) (key : pystr) : bool :=
  match v with
  | PDict entries => bool_decide (is_Some (dict_lookup entries key))
  | _ => false
  end.

(** ** What the shell shows *)

(** Events that enter no coroutine and send no request. *)
Definition quiet (evs : list event) : Prop := calls evs = [] ∧ requests evs = [].

(** A computation that reads no line and adds only such events. *)
Definition prints_only {A : Type} (m : shell A) : Prop :=
  ∀ c, ∃ evs, (m c).2 = emit evs c ∧ quiet evs.

Definition quote_line (crypto : PriceQuote) : event :=
  Printed (quote_fragments crypto).

Definition quote_writable (py : interpreter) (crypto : PriceQuote) : bool :=
  writable py (PStr (name crypto)) && writable py (PStr (price crypto)).

(** An article contains both fields when it is an object with a "title" and
    with a "source" that is an object with a "name". *)
Definition article_fields (article : pyval) : option (pyval * pyval) :=
  match article with
  | PDict entries =>
      match dict_lookup entries (lit "title"),
            dict_lookup entries (lit "source") with
      | Some title, Some (PDict source) =>
          match dict_lookup source (lit "name") with
          | Some source_name => Some (title, source_name)
          | None => None
          end
      | _, _ => None
      end
  | _ => None
  end.

(** It can be printed when, besides, standard output can encode both. *)
Definition article_printable (py : interpreter) (article : pyval) : bool :=
  match article_fields article with
  | Some (title, source_name) => writable py title && writable py source_name
  | None => false
  end.

Definition article_lines (articles : list pyval) : list event :=
  omap (λ article,
          '(title, source_name) ← article_fields article;
          Some (Printed (article_fragments title source_name)))
       articles.

(** What a failed subscript raises: [KeyError] for a key the dict does not
    have, [TypeError] when the value subscripted is not a dict. *)
Definition subscript_error (e : exn) : Prop :=
  e = KeyError (lit "title") ∨ e = KeyError (lit "source")
  ∨ e = KeyError (lit "name") ∨ e = TypeError.

(** The terminal when the menu choice has been read. *)
Definition at_menu (rest : list pystr) : console :=
  Console rest (banner ++ [Prompted menu_prompt]).

(** The coroutines a session is expected to enter, read off the lines the
    operator typed: none unless [int] reads the first line as 1, 2 or 3, and
    for 2 and 3 none unless the line the shell then asks for is there. *)
Definition expected_calls (py : interpreter) (lines : list pystr) : list call :=
  match lines with
  | [] => []
  | line :: rest =>
      match int_of py line with
      | Some option =>
          if bool_decide (option = 1%Z) then [fetch_crypto_prices_]
          else if bool_decide (option = 2%Z) then
            match rest with
            | topic :: _ => [get_latest_news_ topic (lit "en")]
            | [] => []
            end
          else if bool_decide (option = 3%Z) then
            match rest with
            | location :: _ => [get_latest_weather_ location]
            | [] => []
            end
          else []
      | None => []
      end
  end.

(** The lines a session asks for: the menu choice, and one more after
    choice 2 or 3. *)
Definition lines_wanted (py : interpreter) (lines : list pystr) : nat :=
  match lines with
  | [] => 1
  | line :: _ =>
      match int_of py line with
      | Some option =>
          if bool_decide (option = 2%Z ∨ option = 3%Z) then 2 else 1
      | None => 1
      end
  end.

(** What the terminal has shown when the quotes, the articles or the
    weather data are about to be printed. *)
Definition crypto_shown : list event :=
  banner ++ [ Prompted menu_prompt; Entered fetch_crypto_prices_;
              Sent crypto_request; Printed crypto_heading ].

Definition news_shown (topic : pystr) : list event :=
  banner ++ [ Prompted menu_prompt; Prompted topic_prompt;
              Entered (get_latest_news_ topic (lit "en"));
              Sent (news_request topic (lit "en"));
              Printed (news_heading topic) ].

Definition weather_fetched (location : pystr) : list event :=
  banner ++ [ Prompted menu_prompt; Prompted location_prompt;
              Entered (get_latest_weather_ location);
              Sent (weather_request location);
              Printed (weather_heading location) ].

Definition weather_shown (location : pystr) (data : pyval) : list event :=
  weather_fetched location ++ [Printed [Str data]].

(** ** Fixtures *)

(** A service that cannot be reached, and one that answers every request
    with the same response. *)
Definition offline : world := λ _, Raise (ClientError "Cannot connect to host").

Definition always (resp : response) : world := λ _, Ok resp.

Definition no_markup : outcome node := Raise (ParserError "no markup").
Definition no_json : outcome pyval := Raise (ContentTypeError "unexpected mimetype").

(** An interpreter for the examples: CPython 3.11 writing to a UTF-8
    terminal.

    Its [int] first brings the line to ASCII: a character below 128 stays, a
    blank above becomes a space, a decimal digit above becomes the ASCII
    digit of the same value, and any other character makes the line
    invalid.  It then reads a decimal literal: blanks around (tab to
    carriage return, and space; not the separators 28 to 31), one sign,
    digits with single underscores between them, and at most 4300 digits. *)

(** The decimal digits of Unicode 14.0, in runs: first code point and
    length.  The first of a run stands for 0, the next for 1, and so on
    round. *)
Definition decimal_runs : list (N * N) :=
  [ (48, 10); (1632, 10); (1776, 10); (1984, 10); (2406, 10); (2534, 10);
    (2662, 10); (2790, 10); (2918, 10); (3046, 10); (3174, 10); (3302, 10);
    (3430, 10); (3558, 10); (3664, 10); (3792, 10); (3872, 10); (4160, 10);
    (4240, 10); (6112, 10); (6160, 10); (6470, 10); (6608, 10); (6784, 10);
    (6800, 10); (6992, 10); (7088, 10); (7232, 10); (7248, 10); (42528, 10);
    (43216, 10); (43264, 10); (43472, 10); (43504, 10); (43600, 10);
    (44016, 10); (65296, 10); (66720, 10); (68912, 10); (69734, 10);
    (69872, 10); (69942, 10); (70096, 10); (70384, 10); (70736, 10);
    (70864, 10); (71248, 10); (71360, 10); (71472, 10); (71904, 10);
    (72016, 10); (72784, 10); (73040, 10); (73120, 10); (92768, 10);
    (92864, 10); (93008, 10); (120782, 50); (123200, 10); (123632, 10);
    (125264, 10); (130032, 10) ]%N.

Definition unicode_decimal (c : N) : option N :=
  (λ run, (c - run.1) mod 10)%N
    <$> List.find (λ run, (run.1 <=? c) && (c <? run.1 + run.2))%N decimal_runs.

Definition to_ascii (c : N) : option N :=
  if (c <? 128)%N then Some c
  else if py_isspace c then Some 32%N
  else (λ d, 48 + d)%N <$> unicode_decimal c.

Definition int_blank (c : N) : bool := ((9 <=? c) && (c <=? 13) || (c =? 32))%N.

Definition digit_value (c : N) : option Z :=
  if ((48 <=? c) && (c <=? 57))%N then Some (Z.of_N (c - 48)) else None.

Fixpoint ltrim (s : pystr) : pystr :=
  match s with
  | c :: s' => if int_blank c then ltrim s' else s
  | [] => []
  end.

(** [after_digit] tells whether the previous character was a digit: only
    then may an underscore follow or the literal end. *)
Fixpoint read_digits (acc : Z) (after_digit : bool) (s : pystr) : option Z :=
  match s with
  | [] => if after_digit then Some acc else None
  | c :: s' =>
      if (c =? 95)%N then
        if after_digit then read_digits acc false s' else None
      else
        d ← digit_value c;
        read_digits (10 * acc + d)%Z true s'
  end.

Definition ascii_int (s : pystr) : option Z :=
  let body := reverse (ltrim (reverse (ltrim s))) in
  if bool_decide (4300 < length (filter (λ c, is_Some (digit_value c)) body))
  then None
  else
    match body with
    | 45%N :: digits => Z.opp <$> read_digits 0 false digits
    | 43%N :: digits => read_digits 0 false digits
    | digits => read_digits 0 false digits
    end.

Definition cpython_int (s : pystr) : option Z := mapM to_ascii s ≫= ascii_int.

(** Its standard output encodes every string but one that holds a lone
    surrogate; the other values are shown through [repr], which escapes
    surrogates. *)
Definition is_surrogate (c : N) : bool := ((55296 <=? c) && (c <=? 57343))%N.

Definition utf8_writable (v : pyval) : bool :=
  match v with
  | PStr s => forallb (λ c, negb (is_surrogate c)) s
  | _ => true
  end.

Definition cpython : interpreter := Interpreter cpython_int utf8_writable.

(** The weather fixtures: a 200 reply and a 404 reply. *)
Definition weather_200_body : pyval :=
  PDict [(lit "main", PDict [(lit "temp", PFloat 21.5)])].
Definition weather_404_body : pyval :=
  PDict [(lit "message", PStr (lit "city not found"))].

Definition weather_200 : world :=
  always (Response 200 no_markup (Ok weather_200_body)).
Definition weather_404 : world :=
  always (Response 404 no_markup (Ok weather_404_body)).

(** The news fixtures. *)
Definition article (title source_name : pystr) : pyval :=
  PDict [(lit "source", PDict [(lit "id", PNone); (lit "name", PStr source_name)]);
         (lit "title", PStr title)].

Definition eight_articles : list pyval :=
  [ article (lit "one") (lit "A"); article (lit "two") (lit "B");
    article (lit "three") (lit "C"); article (lit "four") (lit "D");
    article (lit "five") (lit "E"); article (lit "six") (lit "F");
    article (lit "seven") (lit "G"); article (lit "eight") (lit "H") ].

Definition news_body (articles : pyval) : pyval :=
  PDict [(lit "status", PStr (lit "ok")); (lit "articles", articles)].

Definition news_of (articles : pyval) : world :=
  always (Response 200 no_markup (Ok (news_body articles))).

(** A string with accented letters, one code point each. *)
Definition accented : pystr :=
  [104; 233; 108; 108; 111; 32; 119; 246; 114; 108; 100]%N.

(** An article without a title, between two complete ones. *)
Definition untitled : pyval :=
  PDict [(lit "source", PDict [(lit "id", PNone); (lit "name", PStr (lit "B"))])].

Definition three_articles : list pyval :=
  [article (lit "one") (lit "A"); untitled; article (lit "three") (lit "C")].

(** A title that is a lone surrogate, as [json.loads] builds from an
    unpaired escape. *)
Definition lone_surrogate : pystr := [55357%N].


(** The markup fixtures. *)
Definition txt (s : string) : node := Text (lit s).
Definition tag (name : string) (contents : list node) : node :=
  Tag (lit name) contents.
Definition link (s : string) : node := tag "a" [txt s].
Definition td (contents : list node) : node := tag "td" contents.
Definition listing_row (rank coin usd : string) : node :=
  tag "tr" [td [txt rank]; td []; td [link coin];
            td [tag "div" [link usd]]; td [txt "0.5%"]].
Definition page (rows : list node) : node :=
  tag "[document]" [tag "html" [tag "body" [tag "table" [tag "tbody" rows]]]].
Definition serving (doc : node) : world :=
  always (Response 200 (Ok doc) no_json).

(** Five full rows; the third has no link in its price column. *)
Definition third_row : node :=
  tag "tr" [td [txt "3"]; td []; td [link "Tether"]; td [txt "$1.00"]].

Definition five_rows : node :=
  page [ listing_row "1" "Bitcoin" "$97,000";
         listing_row "2" "Ethereum" "$3,400";
         third_row;
         listing_row "4" "XRP" "$2.30";
         listing_row "5" "BNB" "$690";
         listing_row "6" "Solana" "$190" ].

(** A header row without columns, then full rows. *)
Definition header_row : node :=
  tag "tr" [tag "th" [txt "#"]; tag "th" [txt "Name"]; tag "th" [txt "Price"]].

Definition header_then_rows : node :=
  page [ header_row;
         listing_row "1" "Bitcoin" "$97,000";
         listing_row "2" "Ethereum" "$3,400" ].

Definition header_then_five : node :=
  page [ header_row;
         listing_row "1" "Bitcoin" "$97,000";
         listing_row "2" "Ethereum" "$3,400";
         listing_row "3" "Tether" "$1.00";
         listing_row "4" "XRP" "$2.30";
         listing_row "5" "BNB" "$690" ].

(** Two full rows, then a row with three columns only. *)
Definition three_columns : node :=
  tag "tr" [td [txt "3"]; td []; td [link "Tether"]].

Definition short_third_row : node :=
  page [ listing_row "1" "Bitcoin" "$97,000";
         listing_row "2" "Ethereum" "$3,400";
         three_columns;
         listing_row "4" "XRP" "$2.30" ].

(** The market page cannot be reached; the two JSON services answer. *)
Definition market_down : world := λ rq,
  if String.eqb (url rq) COINMARKETCAP_URL then
    Raise (ClientError "Cannot connect to host coinmarketcap.com")
  else if String.eqb (url rq) NEWS_API_URL then
    Ok (Response 200 no_markup (Ok (news_body (PList eight_articles))))
  else
    Ok (Response 200 no_markup (Ok weather_200_body)).

(** A page of headlines; the second is blank and the last is wrapped in
    no-break spaces (U+00A0). *)
Definition h4 (contents : list node) : node := tag "h4" contents.

Definition padded_headline : node :=
  h4 [Text ([160%N] ++ lit "Bitcoin up" ++ [160%N])].

Definition headlines_page : node :=
  tag "[document]"
    [tag "div" [h4 [txt "  Bitcoin "; link "rallies"; txt " "];
                h4 [txt "   "];
                tag "p" [txt "not a headline"];
                padded_headline]].

(** * Properties *)

Section Adapters.

Context (w : world).

Lemma except_Exception_catches {A : Type} (body : outcome A) (dflt : A) :
  try_except body Exception_ (λ _, Ok dflt)
  = Ok (match body with Ok a => a | Raise _ => dflt end).
Proof. by destruct body. Qed.

Lemma result_fetch_crypto_prices :
  result w fetch_crypto_prices
  = try_except (crypto_try (w crypto_request)) Exception_ (λ _, Ok []).
Proof. reflexivity. Qed.

Lemma result_get_latest_news (topic lang_code : option pystr) :
  result w (get_latest_news topic lang_code)
  = try_except
      (news_try (w (news_request (default (lit "technology") topic)
                                 (default (lit "en") lang_code))))
      Exception_ (λ _, Ok (PList [])).
Proof. reflexivity. Qed.

Lemma result_get_latest_weather (location : option pystr) :
  result w (get_latest_weather location)
  = try_except
      (weather_try (w (weather_request (default (lit "Addis Ababa") location))))
      Exception_ (λ _, Ok (PDict [])).
Proof. reflexivity. Qed.

Lemma fetch_crypto_prices_returns :
  ∃ quotes, result w fetch_crypto_prices = Ok quotes.
Proof.
  rewrite result_fetch_crypto_prices, except_Exception_catches. eauto.
Qed.

Lemma get_latest_news_returns (topic lang_code : option pystr) :
  ∃ articles, result w (get_latest_news topic lang_code) = Ok articles.
Proof.
  rewrite result_get_latest_news, except_Exception_catches. eauto.
Qed.

Lemma get_latest_weather_returns (location : option pystr) :
  ∃ data, result w (get_latest_weather location) = Ok data.
Proof.
  rewrite result_get_latest_weather, except_Exception_catches. eauto.
Qed.

End Adapters.

(** C1.  Whatever the network call and the decoding of the response do, each
    of the three adapters returns a value and raises nothing; and whenever
    anything inside its [try] block raises (the transport, the decoding of
    the body, an index or attribute lookup), the crypto and news adapters
    return the empty list and the weather adapter the empty dict. *)
Theorem adapters_absorb_failures
    (w : world) (topic lang_code location : option pystr) :
  (∃ quotes, result w fetch_crypto_prices = Ok quotes) ∧
  (∃ articles, result w (get_latest_news topic lang_code) = Ok articles) ∧
  (∃ data, result w (get_latest_weather location) = Ok data) ∧
  (raised (crypto_try (w crypto_request)) →
     result w fetch_crypto_prices = Ok []) ∧
  (raised (news_try (w (news_request (default (lit "technology") topic)
                                     (default (lit "en") lang_code)))) →
     result w (get_latest_news topic lang_code) = Ok (PList [])) ∧
  (raised (weather_try (w (weather_request (default (lit "Addis Ababa") location)))) →
     result w (get_latest_weather location) = Ok (PDict [])).
Proof.
  split_and!.
  - apply fetch_crypto_prices_returns.
  - apply get_latest_news_returns.
  - apply get_latest_weather_returns.
  - intros [e He]. by rewrite result_fetch_crypto_prices, He.
  - intros [e He]. by rewrite result_get_latest_news, He.
  - intros [e He]. by rewrite result_get_latest_weather, He.
Qed.

(** A transport failure on every request: each adapter returns its empty
    default. *)
Lemma adapters_absorb_failures_witness :
  result offline fetch_crypto_prices = Ok [] ∧
  result offline (get_latest_news None None) = Ok (PList []) ∧
  result offline (get_latest_weather None) = Ok (PDict []).
Proof.
  destruct (adapters_absorb_failures offline None None None)
    as (_ & _ & _ & Hc & Hn & Hw).
  split_and!; [apply Hc | apply Hn | apply Hw]; by eexists.
Defined.

(** C3.  When the weather service answers, the status decides: with status
    200 the adapter returns the decoded body as it is; with any other status
    it returns the empty dict, whatever the body. *)
Theorem weather_status_decides
    (w : world) (location : option pystr) (resp : response) :
  w (weather_request (default (lit "Addis Ababa") location)) = Ok resp →
  (∀ body, status resp = 200%Z → json resp = Ok body →
     result w (get_latest_weather location) = Ok body) ∧
  (status resp ≠ 200%Z →
     result w (get_latest_weather location) = Ok (PDict [])).
Proof.
  intros Hrp. rewrite result_get_latest_weather, Hrp.
  unfold weather_try. simpl. split.
  - intros body Hst Hbody. rewrite Hbody. simpl.
    by rewrite bool_decide_eq_true_2.
  - intros Hst. destruct (json resp) as [data|e]; simpl; [|done].
    rewrite bool_decide_eq_false_2 by done.
    by destruct data.
Qed.

(** The two fixtures: 200 with [{"main": {"temp": 21.5}}] comes back
    unchanged, 404 with [{"message": "city not found"}] gives [{}]. *)
Lemma weather_status_decides_witness :
  result weather_200 (get_latest_weather None) = Ok weather_200_body ∧
  result weather_404 (get_latest_weather (Some (lit "Atlantis"))) = Ok (PDict []).
Proof.
  split.
  - by apply (weather_status_decides weather_200 None
                (Response 200 no_markup (Ok weather_200_body))).
  - by apply (weather_status_decides weather_404 (Some (lit "Atlantis"))
                (Response 404 no_markup (Ok weather_404_body))).
Defined.

(** C5.  When the body decodes to an object whose "articles" entry is an
    array of n entries, the news adapter returns its first min(n, 5)
    entries, in order and untouched; when the decoded body has no "articles"
    key, it returns the empty list. *)
Theorem news_first_five
    (w : world) (topic lang_code : option pystr) (resp : response)
    (body : pyval) :
  w (news_request (default (lit "technology") topic) (default (lit "en") lang_code))
    = Ok resp →
  json resp = Ok body →
  (∀ entries articles,
     body = PDict entries →
     dict_lookup entries (lit "articles") = Some (PList articles) →
     ∃ returned,
       result w (get_latest_news topic lang_code) = Ok (PList returned) ∧
       length returned = length articles `min` 5 ∧
       returned = take 5 articles ∧
       ∀ i, i < length returned → returned !! i = articles !! i) ∧
  (has_key body (lit "articles") = false →
     result w (get_latest_news topic lang_code) = Ok (PList [])).
Proof.
  intros Hrp Hbody. rewrite result_get_latest_news, Hrp.
  unfold news_try. simpl. rewrite Hbody. simpl. split.
  - intros entries articles -> Hlook. simpl. rewrite Hlook. simpl.
    exists (take 5 articles). split_and!; [done| |done|].
    + rewrite length_take. lia.
    + intros i Hi. rewrite length_take in Hi.
      apply lookup_take_lt. lia.
  - intros Hkey. destruct body; try done. simpl in *.
    destruct (dict_lookup entries (lit "articles")) as [v|] eqn:Hlook; [|done].
    by rewrite bool_decide_eq_true_2 in Hkey.
Qed.

(** Eight articles in, the first five out; no "articles" key, nothing out. *)
Lemma news_first_five_witness :
  result (news_of (PList eight_articles)) (get_latest_news (Some (lit "ai")) None)
    = Ok (PList (take 5 eight_articles)) ∧
  result (always (Response 401 no_markup (Ok (PDict [((lit "status"), PStr (lit "error"))]))))
         (get_latest_news None None)
    = Ok (PList []).
Proof.
  split.
  - destruct (news_first_five (news_of (PList eight_articles)) (Some (lit "ai")) None
                (Response 200 no_markup
                   (Ok (PDict [((lit "status"), PStr (lit "ok"));
                               ((lit "articles"), PList eight_articles)])))
                _ eq_refl eq_refl) as [H _].
    destruct (H _ eight_articles eq_refl eq_refl) as (returned & -> & _ & -> & _).
    reflexivity.
  - by apply (news_first_five _ None None
                (Response 401 no_markup (Ok (PDict [((lit "status"), PStr (lit "error"))])))
                _ eq_refl eq_refl).
Defined.

Section Extraction.

Lemma link_text_or_NA_lookup (cols : list node) (i : nat) (col : node) :
  cols !! i = Some col → link_text_or_NA cols i = Ok (spec_field col).
Proof.
  intros Hcol. unfold link_text_or_NA, list_getitem, spec_field.
  rewrite Hcol. simpl. by destruct (find (lit "a") col).
Qed.

Lemma link_text_or_NA_short (cols : list node) (i : nat) :
  (length cols ≤ i)%nat → link_text_or_NA cols i = Raise IndexError.
Proof.
  intros Hlen. unfold link_text_or_NA, list_getitem.
  by rewrite (lookup_ge_None_2 cols i Hlen).
Qed.

(** The only exception the loop raises is the index error of a subscript. *)
Lemma extract_rows_raises (rows : list node) (acc : list PriceQuote) (e : exn) :
  extract_rows rows acc = Raise e → e = IndexError.
Proof.
  revert acc. induction rows as [|row rows IH]; intros acc; simpl; [done|].
  case_bool_decide; [|by apply IH].
  unfold link_text_or_NA, list_getitem.
  destruct (find_all (lit "td") row !! 2) as [c2|]; simpl; [|congruence].
  destruct (find (lit "a") c2); simpl;
    (destruct (find_all (lit "td") row !! 3) as [c3|]; simpl; [|congruence]);
    destruct (find (lit "a") c3); simpl; apply IH.
Qed.

(** Rows that have no column or at least four: the loop appends what the
    specification describes, row by row. *)
Lemma extract_rows_spec (rows : list node) (acc : list PriceQuote) :
  Forall (λ row, find_all (lit "td") row = [] ∨ well_formed row) rows →
  extract_rows rows acc = Ok (acc ++ (rows ≫= spec_row)).
Proof.
  intros Hrows. revert acc.
  induction Hrows as [|row rows Hrow _ IH]; intros acc; simpl.
  { by rewrite app_nil_r. }
  unfold spec_row, well_formed in *. destruct Hrow as [Hnone|Hfour].
  - rewrite Hnone. simpl. apply IH.
  - destruct (find_all (lit "td") row) as [|c0 [|c1 [|c2 [|c3 cols]]]] eqn:Hcols;
      simpl in Hfour; try lia.
    rewrite bool_decide_eq_true_2 by (simpl; lia).
    rewrite (link_text_or_NA_lookup _ 2 c2), (link_text_or_NA_lookup _ 3 c3)
      by done.
    simpl. rewrite IH. by rewrite <- app_assoc.
Qed.

(** One row with a column but fewer than four ends the loop with an index
    error, whatever had been appended before. *)
Lemma extract_rows_short (rows : list node) (acc : list PriceQuote) (row : node) :
  row ∈ rows →
  0 < length (find_all (lit "td") row) < 4 →
  extract_rows rows acc = Raise IndexError.
Proof.
  intros Hin Hshort. revert acc.
  induction rows as [|r rows IH]; intros acc; [by apply elem_of_nil in Hin|].
  simpl. destruct (decide (length (find_all (lit "td") r) = 0)) as [Hzero|Hsome].
  - rewrite bool_decide_eq_false_2 by lia.
    apply IH. apply elem_of_cons in Hin as [->|Hin]; [lia|done].
  - rewrite bool_decide_eq_true_2 by lia.
    destruct (find_all (lit "td") r !! 2) as [c2|] eqn:H2; last first.
    { rewrite (link_text_or_NA_short _ 2); [reflexivity|by apply lookup_ge_None]. }
    rewrite (link_text_or_NA_lookup _ 2 c2) by done. simpl.
    destruct (find_all (lit "td") r !! 3) as [c3|] eqn:H3; last first.
    { rewrite (link_text_or_NA_short _ 3); [reflexivity|by apply lookup_ge_None]. }
    rewrite (link_text_or_NA_lookup _ 3 c3) by done. simpl.
    apply IH. apply elem_of_cons in Hin as [->|Hin]; [|done].
    apply lookup_lt_Some in H3. lia.
Qed.

Lemma spec_row_well_formed (rows : list node) :
  Forall well_formed rows →
  Forall2 (λ row q, ∃ c2 c3,
             find_all (lit "td") row !! 2 = Some c2 ∧
             find_all (lit "td") row !! 3 = Some c3 ∧
             q = Quote (spec_field c2) (spec_field c3))
          rows (rows ≫= spec_row).
Proof.
  induction 1 as [|row rows Hrow _ IH]; [constructor|].
  unfold well_formed in Hrow.
  destruct (lookup_lt_is_Some_2 (find_all (lit "td") row) 2) as [c2 H2]; [lia|].
  destruct (lookup_lt_is_Some_2 (find_all (lit "td") row) 3) as [c3 H3]; [lia|].
  rewrite bind_cons. unfold spec_row at 1. rewrite H2, H3. simpl.
  constructor; [|done]. by exists c2, c3.
Qed.

End Extraction.

(** C4.  The page was fetched and parsed, and [rows] are its first five
    table rows.  If there are five of them, each with at least four columns,
    the crypto adapter returns five quotes, the i-th taken from the i-th
    row: its name is the text of the link nested in the column at index 2,
    its price that of the link nested in the column at index 3, and a field
    whose column has no link is "N/A".  If every row has either no column or
    at least four, the adapter returns the quotes of the rows that have
    columns, in order, the others being skipped. *)
Theorem crypto_first_five_rows (w : world) (resp : response) (doc : node) :
  w crypto_request = Ok resp →
  markup resp = Ok doc →
  let rows := take 5 (find_all (lit "tr") doc) in
  (length rows = 5 → Forall well_formed rows →
     ∃ quotes,
       result w fetch_crypto_prices = Ok quotes ∧
       length quotes = 5 ∧
       ∀ i row, rows !! i = Some row →
         ∃ c2 c3 q,
           find_all (lit "td") row !! 2 = Some c2 ∧
           find_all (lit "td") row !! 3 = Some c3 ∧
           quotes !! i = Some q ∧
           name q = match find (lit "a") c2 with
                    | Some a => text a
                    | None => (lit "N/A")
                    end ∧
           price q = match find (lit "a") c3 with
                     | Some a => text a
                     | None => (lit "N/A")
                     end) ∧
  (Forall (λ row, find_all (lit "td") row = [] ∨ well_formed row) rows →
     result w fetch_crypto_prices = Ok (rows ≫= spec_row)).
Proof.
  intros Hrp Hdoc rows.
  assert (Hskip : Forall (λ row, find_all (lit "td") row = [] ∨ well_formed row) rows →
                  result w fetch_crypto_prices = Ok (rows ≫= spec_row)).
  { intros Hrows. rewrite result_fetch_crypto_prices, Hrp.
    unfold crypto_try. simpl. rewrite Hdoc. simpl.
    fold rows. by rewrite extract_rows_spec. }
  split; [|done].
  intros Hfive Hwf. exists (rows ≫= spec_row).
  pose proof (spec_row_well_formed rows Hwf) as Hquotes.
  split_and!.
  - apply Hskip. eapply Forall_impl; [done|]. by right.
  - by rewrite <- (Forall2_length _ _ _ Hquotes).
  - intros i row Hrow.
    destruct (Forall2_lookup_l _ _ _ _ _ Hquotes Hrow)
      as (q & Hq & c2 & c3 & H2 & H3 & ->).
    by exists c2, c3, (Quote (spec_field c2) (spec_field c3)).
Qed.

(** The fixture with five full rows: five quotes, listed in [five_rows_quotes]
    below; and after a header row without columns only the full rows are
    quoted. *)
Lemma crypto_first_five_rows_witness :
  (∃ quotes,
     result (serving five_rows) fetch_crypto_prices = Ok quotes ∧
     length quotes = 5 ∧
     ∃ q, quotes !! 2 = Some q ∧ name q = (lit "Tether") ∧ price q = (lit "N/A")) ∧
  result (serving header_then_rows) fetch_crypto_prices
    = Ok [ Quote (lit "Bitcoin") (lit "$97,000"); Quote (lit "Ethereum") (lit "$3,400") ].
Proof.
  split.
  - destruct (crypto_first_five_rows (serving five_rows)
                (Response 200 (Ok five_rows) no_json) five_rows
                eq_refl eq_refl) as [Hfive _].
    destruct Hfive as (quotes & Hres & Hlen & Hidx).
    + reflexivity.
    + repeat constructor.
    + exists quotes. split_and!; [done..|].
      destruct (Hidx 2 _ eq_refl) as (c2 & c3 & q & H2 & H3 & Hq & Hname & Hprice).
      injection H2 as <-. injection H3 as <-. by exists q.
  - apply (crypto_first_five_rows (serving header_then_rows)
             (Response 200 (Ok header_then_rows) no_json) header_then_rows
             eq_refl eq_refl).
    repeat constructor; (by left) || (right; repeat constructor).
Defined.

Example five_rows_quotes :
  result (serving five_rows) fetch_crypto_prices
  = Ok [ Quote (lit "Bitcoin") (lit "$97,000"); Quote (lit "Ethereum") (lit "$3,400");
         Quote (lit "Tether") (lit "N/A"); Quote (lit "XRP") (lit "$2.30"); Quote (lit "BNB") (lit "$690") ].
Proof. reflexivity. Qed.

(** C9.  The page was fetched and parsed, and one of its first five table
    rows has a column but fewer than four.  Then the subscript on that row
    raises an index error that ends the whole extraction, and the adapter
    returns the empty list: the quotes appended for the well-formed rows
    before it, one per row, are dropped. *)
Theorem short_row_discards_quotes
    (w : world) (resp : response) (doc : node) (row : node) :
  w crypto_request = Ok resp →
  markup resp = Ok doc →
  row ∈ take 5 (find_all (lit "tr") doc) →
  0 < length (find_all (lit "td") row) < 4 →
  crypto_try (w crypto_request) = Raise IndexError ∧
  result w fetch_crypto_prices = Ok [] ∧
  ∀ earlier later,
    take 5 (find_all (lit "tr") doc) = earlier ++ row :: later →
    Forall well_formed earlier →
    ∃ quotes,
      extract_rows earlier [] = Ok quotes ∧
      length quotes = length earlier ∧
      extract_rows (row :: later) quotes = Raise IndexError.
Proof.
  intros Hrp Hdoc Hin Hshort.
  assert (Htry : crypto_try (w crypto_request) = Raise IndexError).
  { rewrite Hrp. unfold crypto_try. simpl. rewrite Hdoc. simpl.
    by eapply extract_rows_short. }
  split_and!; [done| |].
  - by rewrite result_fetch_crypto_prices, Htry.
  - intros earlier later _ Hwf. exists (earlier ≫= spec_row). split_and!.
    + rewrite extract_rows_spec; [done|].
      eapply Forall_impl; [done|]. by right.
    + by rewrite <- (Forall2_length _ _ _ (spec_row_well_formed _ Hwf)).
    + eapply extract_rows_short; [|done]. by left.
Qed.

(** Two full rows, then a row of three columns: the index error is raised,
    the two quotes already appended are dropped, and the adapter returns the
    empty list. *)
Lemma short_row_discards_quotes_witness :
  crypto_try (serving short_third_row crypto_request) = Raise IndexError ∧
  result (serving short_third_row) fetch_crypto_prices = Ok [] ∧
  ∃ quotes,
    extract_rows [ listing_row "1" "Bitcoin" "$97,000";
                   listing_row "2" "Ethereum" "$3,400" ] [] = Ok quotes ∧
    length quotes = 2.
Proof.
  destruct (short_row_discards_quotes (serving short_third_row)
              (Response 200 (Ok short_third_row) no_json) short_third_row
              (Tag (lit "tr") [td [Text (lit "3")]; td []; td [link "Tether"]])
              eq_refl eq_refl) as (Htry & Hres & Hlost).
  - apply list_elem_of_lookup. by exists 2.
  - simpl. lia.
  - split_and!; [done..|].
    destruct (Hlost [ listing_row "1" "Bitcoin" "$97,000";
                      listing_row "2" "Ethereum" "$3,400" ]
                    [ listing_row "4" "XRP" "$2.30" ] eq_refl)
      as (quotes & Hq & Hlen & _).
    + repeat constructor.
    + by exists quotes.
Defined.

Section EventLoop.

Context (w : world).

Lemma events_Enter {A : Type} (c : call) (k : task A) :
  events w (Enter c k) = Entered c :: events w k.
Proof. unfold events. simpl. by destruct (run_until_complete w k). Qed.

Lemma events_Await {A : Type} (rq : request) (k : reply → task A) :
  events w (Await rq k) = Sent rq :: events w (k (w rq)).
Proof. unfold events. simpl. by destruct (run_until_complete w (k (w rq))). Qed.

Lemma events_Done {A : Type} (r : outcome A) : events w (Done r) = [].
Proof. reflexivity. Qed.

Lemma result_Enter {A : Type} (c : call) (k : task A) :
  result w (Enter c k) = result w k.
Proof. unfold result. simpl. by destruct (run_until_complete w k). Qed.

Lemma result_Await {A : Type} (rq : request) (k : reply → task A) :
  result w (Await rq k) = result w (k (w rq)).
Proof. unfold result. simpl. by destruct (run_until_complete w (k (w rq))). Qed.

(** A step of a task is the first event of its run; the rest of the run
    is the run of what the step leaves. *)
Lemma step_run {A : Type} (t : task A) (ev : event) (t' : task A) :
  step w t = Some (ev, t') →
  events w t = ev :: events w t' ∧ result w t = result w t'.
Proof.
  destruct t as [r|c k|rq k]; simpl; intros Hstep; simplify_eq.
  - by rewrite events_Enter, result_Enter.
  - by rewrite events_Await, result_Await.
Qed.

Lemma gather_cons {A B C : Type} (n : nat) (sched : list nat)
    (ta : task A) (tb : task B) (tc : task C) :
  gather w (n :: sched) ta tb tc
  = match settled ta tb tc with
    | Some r => Some ([], r)
    | None =>
        let ready := pending ta tb tc in
        match ready !! (n mod length ready) with
        | Some 0 =>
            '(ev, ta') ← step w ta;
            '(tr, r) ← gather w sched ta' tb tc;
            Some (ev :: tr, r)
        | Some 1 =>
            '(ev, tb') ← step w tb;
            '(tr, r) ← gather w sched ta tb' tc;
            Some (ev :: tr, r)
        | Some _ =>
            '(ev, tc') ← step w tc;
            '(tr, r) ← gather w sched ta tb tc';
            Some (ev :: tr, r)
        | None => None
        end
    end.
Proof. reflexivity. Qed.

Lemma mod_1 (n : nat) : n mod 1 = 0.
Proof. apply Nat.mod_1_r. Qed.

Lemma mod_2 (n : nat) : n mod 2 = 0 ∨ n mod 2 = 1.
Proof. pose proof (Nat.mod_upper_bound n 2). lia. Qed.

Lemma mod_3 (n : nat) : n mod 3 = 0 ∨ n mod 3 = 1 ∨ n mod 3 = 2.
Proof. pose proof (Nat.mod_upper_bound n 3). lia. Qed.

Lemma interleave_first (ev : event) (Ea Ea' Eb Ec : list event) :
  Ea = ev :: Ea' → ev :: Ea' ++ Eb ++ Ec ≡ₚ Ea ++ Eb ++ Ec.
Proof. by intros ->. Qed.

Lemma interleave_second (ev : event) (Ea Eb Eb' Ec : list event) :
  Eb = ev :: Eb' → ev :: Ea ++ Eb' ++ Ec ≡ₚ Ea ++ Eb ++ Ec.
Proof. intros ->. apply Permutation_middle. Qed.

Lemma interleave_third (ev : event) (Ea Eb Ec Ec' : list event) :
  Ec = ev :: Ec' → ev :: Ea ++ Eb ++ Ec' ≡ₚ Ea ++ Eb ++ Ec.
Proof.
  intros ->. rewrite !app_assoc. apply Permutation_middle.
Qed.

Ltac run_facts :=
  repeat match goal with
    | H : context [events w (Enter _ _)] |- _ => rewrite events_Enter in H
    | H : context [events w (Await _ _)] |- _ => rewrite events_Await in H
    | H : context [result w (Enter _ _)] |- _ => rewrite result_Enter in H
    | H : context [result w (Await _ _)] |- _ => rewrite result_Await in H
    | H : result w (Done _) = Ok _ |- _ => unfold result in H; simpl in H; subst
    end.

Ltac pick_next n :=
  rewrite gather_cons; cbn -[Nat.modulo gather events];
  first [ rewrite (mod_1 n)
        | destruct (mod_2 n) as [-> | ->]
        | destruct (mod_3 n) as [-> | [-> | ->]] ];
  cbn -[gather events].

Lemma gather_all_return {A B C : Type} (sched : list nat) :
  ∀ (ta : task A) (tb : task B) (tc : task C) a b c,
    result w ta = Ok a → result w tb = Ok b → result w tc = Ok c →
    length (events w ta) + length (events w tb) + length (events w tc)
      ≤ length sched →
    ∃ tr, gather w sched ta tb tc = Some (tr, Ok (a, b, c)) ∧
          tr ≡ₚ events w ta ++ events w tb ++ events w tc.
Proof.
  induction sched as [|n sched IH]; intros ta tb tc a b c Ha Hb Hc Hlen.
  - destruct ta, tb, tc; run_facts; simpl in Hlen; try lia.
    by exists [].
  - destruct ta, tb, tc; run_facts; simpl in Hlen.
    1: by exists [].
    all: pick_next n.
    all: match goal with
         | |- context [gather w _ ?x ?y ?z] =>
             destruct (IH x y z a b c) as (tr & -> & Htr);
               [ rewrite ?result_Enter, ?result_Await; done ..
               | rewrite ?events_Enter, ?events_Await, ?events_Done;
                 simpl; lia
               | ]
         end.
    all: eexists; split; [reflexivity|].
    all: rewrite Htr;
         first [ apply interleave_first
               | apply interleave_second
               | apply interleave_third ];
         first [ apply events_Enter | apply events_Await ].
Qed.

(** While steps remain and no task raises, [gather] is not settled: with
    fewer decisions than steps the loop has not produced the result. *)
Lemma gather_waits {A B C : Type} (sched : list nat) :
  ∀ (ta : task A) (tb : task B) (tc : task C) a b c,
    result w ta = Ok a → result w tb = Ok b → result w tc = Ok c →
    length sched
      < length (events w ta) + length (events w tb) + length (events w tc) →
    gather w sched ta tb tc = None.
Proof.
  induction sched as [|n sched IH]; intros ta tb tc a b c Ha Hb Hc Hlen.
  - destruct ta, tb, tc; run_facts; simpl in Hlen; try lia; reflexivity.
  - destruct ta, tb, tc; run_facts; simpl in Hlen; try lia.
    all: pick_next n.
    all: match goal with
         | |- context [gather w _ ?x ?y ?z] =>
             rewrite (IH x y z a b c);
               [ reflexivity
               | rewrite ?result_Enter, ?result_Await; done ..
               | rewrite ?events_Enter, ?events_Await, ?events_Done;
                 simpl; lia ]
         end.
Qed.

End EventLoop.

(** C2.  Under any interleaving of the three adapters, once the event loop
    has made the six scheduling decisions their steps need, [fetch_all_data]
    returns an aggregate whose three fields are exactly what
    [fetch_crypto_prices], [get_latest_news(topic)] and
    [get_latest_weather(location)] return when run on their own, all three
    having run to their end; in particular a failed market call leaves the
    empty list in its field and the other two fields as their adapters
    produced them.  With fewer decisions the result is not there yet. *)
Theorem fetch_all_data_gathers
    (w : world) (topic location : option pystr) (sched : list nat) :
  (6 ≤ length sched →
   ∃ tr quotes articles data,
     fetch_all_data topic location w sched
       = Some (Entered (fetch_all_data_ (default (lit "technology") topic)
                                        (default (lit "Addis Ababa") location)) :: tr,
               Ok (Aggregate quotes articles data)) ∧
     result w fetch_crypto_prices = Ok quotes ∧
     result w (get_latest_news topic None) = Ok articles ∧
     result w (get_latest_weather location) = Ok data ∧
     tr ≡ₚ events w fetch_crypto_prices
           ++ events w (get_latest_news topic None)
           ++ events w (get_latest_weather location) ∧
     (raised (crypto_try (w crypto_request)) → quotes = [])) ∧
  (length sched < 6 → fetch_all_data topic location w sched = None).
Proof.
  destruct (fetch_crypto_prices_returns w) as [quotes Hq].
  destruct (get_latest_news_returns w topic None) as [articles Ha].
  destruct (get_latest_weather_returns w location) as [data Hd].
  split; intros Hlen.
  - destruct (gather_all_return w sched fetch_crypto_prices
                (get_latest_news topic None) (get_latest_weather location)
                quotes articles data Hq Ha Hd) as (tr & Hrun & Htr).
    { unfold events. simpl. lia. }
    exists tr, quotes, articles, data. split_and!; try done.
    + unfold fetch_all_data.
      change (get_latest_news (Some (default (lit "technology") topic)) None)
        with (get_latest_news topic None).
      change (get_latest_weather (Some (default (lit "Addis Ababa") location)))
        with (get_latest_weather location).
      by rewrite Hrun.
    + intros [e He].
      rewrite result_fetch_crypto_prices, He in Hq. by injection Hq.
  - unfold fetch_all_data.
    change (get_latest_news (Some (default (lit "technology") topic)) None)
      with (get_latest_news topic None).
    change (get_latest_weather (Some (default (lit "Addis Ababa") location)))
      with (get_latest_weather location).
    rewrite (gather_waits w sched _ _ _ quotes articles data Hq Ha Hd);
      [done|].
    unfold events. simpl. lia.
Qed.

(** The market page is down, news and weather answer, and the loop resumes
    the tasks in the order weather, crypto, news, news, crypto, weather:
    the aggregate has the empty quote list, the first five articles and the
    weather body. *)
Lemma fetch_all_data_gathers_witness :
  ∃ tr,
    fetch_all_data (Some (lit "ai")) None market_down [2; 0; 1; 1; 0; 0]
    = Some (Entered (fetch_all_data_ (lit "ai") (lit "Addis Ababa")) :: tr,
            Ok (Aggregate [] (PList (take 5 eight_articles)) weather_200_body)).
Proof.
  destruct (fetch_all_data_gathers market_down (Some (lit "ai")) None
              [2; 0; 1; 1; 0; 0]) as [Hdone _].
  destruct Hdone as (tr & quotes & articles & data & Hrun & Hq & Ha & Hd & _ & Hfail).
  - simpl. lia.
  - exists tr. rewrite Hrun.
    rewrite (Hfail (ex_intro _ _ eq_refl)).
    cbv in Ha. injection Ha as <-. cbv in Hd. injection Hd as <-.
    reflexivity.
Defined.



Section Shell.

Context (py : interpreter) (w : world).

Lemma emit_emit (evs evs' : list event) (c : console) :
  emit evs' (emit evs c) = emit (evs ++ evs') c.
Proof. unfold emit. simpl. by rewrite app_assoc. Qed.

Lemma emit_nil (c : console) : emit [] c = c.
Proof. unfold emit. rewrite app_nil_r. by destruct c. Qed.

Lemma calls_app (tr tr' : list event) : calls (tr ++ tr') = calls tr ++ calls tr'.
Proof. apply omap_app. Qed.

Lemma requests_app (tr tr' : list event) :
  requests (tr ++ tr') = requests tr ++ requests tr'.
Proof. apply omap_app. Qed.

Lemma quiet_nil : quiet [].
Proof. by split. Qed.

Lemma quiet_app (evs evs' : list event) : quiet evs → quiet evs' → quiet (evs ++ evs').
Proof.
  intros [Hc Hr] [Hc' Hr']. split.
  - by rewrite calls_app, Hc, Hc'.
  - by rewrite requests_app, Hr, Hr'.
Qed.

(** ** print *)

Lemma print_writable (line : list fragment) (c : console) :
  forallb (fragment_writable py) line = true →
  print py line c = (Ok (), emit [Printed line] c).
Proof. unfold print. by intros ->. Qed.

Lemma print_unwritable (line : list fragment) (c : console) :
  forallb (fragment_writable py) line = false →
  print py line c = (Raise UnicodeEncodeError, c).
Proof. unfold print. by intros ->. Qed.

Lemma writable_news_heading (topic : pystr) :
  forallb (fragment_writable py) (news_heading topic) = writable py (PStr topic).
Proof. simpl. by rewrite andb_true_r. Qed.

Lemma writable_weather_heading (location : pystr) :
  forallb (fragment_writable py) (weather_heading location)
  = writable py (PStr location).
Proof. simpl. by rewrite andb_true_r. Qed.

Lemma writable_quote (crypto : PriceQuote) :
  forallb (fragment_writable py) (quote_fragments crypto)
  = quote_writable py crypto.
Proof. unfold quote_writable. simpl. by rewrite andb_true_r. Qed.

Lemma writable_article (title source_name : pyval) :
  forallb (fragment_writable py) (article_fragments title source_name)
  = writable py title && writable py source_name.
Proof. simpl. by rewrite andb_true_r. Qed.

Lemma writable_data (data : pyval) :
  forallb (fragment_writable py) [Str data] = writable py data.
Proof. simpl. by rewrite andb_true_r. Qed.

(** ** Computations that only print *)

Lemma prints_only_print (line : list fragment) : prints_only (print py line).
Proof.
  intros c. unfold print. destruct (forallb _ line).
  - by exists [Printed line].
  - exists []. by rewrite emit_nil.
Qed.

Lemma prints_only_lift {A : Type} (r : outcome A) : prints_only (lift r).
Proof. intros c. exists []. by rewrite emit_nil. Qed.

Lemma prints_only_bind {A B : Type} (m : shell A) (f : A → shell B) :
  prints_only m → (∀ a, prints_only (f a)) → prints_only (m ≫= f).
Proof.
  intros Hm Hf c. unfold mbind, shell_bind.
  destruct (Hm c) as (evs & Hc & Hq).
  destruct (m c) as [[a|e] c'] eqn:Hrun; simpl in Hc; subst c'.
  - destruct (Hf a (emit evs c)) as (evs' & -> & Hq').
    exists (evs ++ evs'). split; [by rewrite emit_emit|by apply quiet_app].
  - by exists evs.
Qed.

Lemma prints_only_for_each {A : Type} (items : list A) (body : A → shell ()) :
  (∀ a, prints_only (body a)) → prints_only (for_each items body).
Proof.
  intros Hbody. induction items as [|a items IH].
  - intros c. exists []. by rewrite emit_nil.
  - simpl. apply prints_only_bind; [done|by intros _].
Qed.

Lemma prints_only_print_article (article : pyval) :
  prints_only (print_article py article).
Proof.
  unfold print_article.
  repeat (apply prints_only_bind; [apply prints_only_lift|intros ?]).
  apply prints_only_print.
Qed.

(** ** The menu *)

(** The banner, the prompt, one line read, then either the error message or
    the chain on the number. *)
Lemma session_menu (line : pystr) (rest : list pystr) :
  session py w (line :: rest)
  = match int_of py line with
    | Some option => dispatch py w option (at_menu rest)
    | None => (Ok (), emit [Printed invalid_input] (at_menu rest))
    end.
Proof.
  cbv [session run_automation_scraper try_or_return mbind shell_bind
       print input lift emit stdin trace at_menu banner app py_int
       forallb fragment_writable andb invalid_input].
  by destruct (int_of py line) as [option|].
Qed.

Lemma session_eof : session py w [] = (Raise EOFError, at_menu []).
Proof. reflexivity. Qed.

Lemma complete_run {A : Type} (t : task A) (c : console) :
  complete w t c = (result w t, emit (events w t) c).
Proof.
  unfold complete, result, events. by destruct (run_until_complete w t).
Qed.

(** ** The three choices, up to what they print last *)

Lemma dispatch_crypto (quotes : list PriceQuote) (c : console) :
  result w fetch_crypto_prices = Ok quotes →
  dispatch py w 1 c
  = for_each quotes (print_quote py)
      (emit (events w fetch_crypto_prices ++ [Printed crypto_heading]) c).
Proof.
  intros Hq. unfold dispatch. simpl.
  unfold mbind at 1, shell_bind. rewrite complete_run, Hq.
  unfold mbind at 1. rewrite print_writable by done.
  by rewrite emit_emit.
Qed.

Lemma dispatch_news (topic : pystr) (rest : list pystr) (tr : list event)
    (returned : pyval) (articles : list pyval) :
  result w (get_latest_news (Some topic) None) = Ok returned →
  py_iter returned = Ok articles →
  dispatch py w 2 (Console (topic :: rest) tr)
  = (print py (news_heading topic) ≫= λ _, for_each articles (print_article py))
      (Console rest (tr ++ Prompted topic_prompt
                        :: events w (get_latest_news (Some topic) None))).
Proof.
  intros Hr Hiter. unfold dispatch. simpl.
  unfold mbind at 1, shell_bind, input. simpl.
  unfold mbind at 1. rewrite complete_run, Hr.
  unfold emit. simpl. rewrite <- app_assoc. simpl.
  unfold mbind, lift.
  destruct (print py (news_heading topic) _) as [[[]|e] c']; [|done].
  by rewrite Hiter.
Qed.

Lemma dispatch_weather (location : pystr) (rest : list pystr)
    (tr : list event) (data : pyval) :
  result w (get_latest_weather (Some location)) = Ok data →
  dispatch py w 3 (Console (location :: rest) tr)
  = (print py (weather_heading location) ≫= λ _, print py [Str data])
      (Console rest (tr ++ Prompted location_prompt
                        :: events w (get_latest_weather (Some location)))).
Proof.
  intros Hr. unfold dispatch. simpl.
  unfold mbind at 1, shell_bind, input. simpl.
  unfold mbind at 1. rewrite complete_run, Hr.
  unfold emit. simpl. by rewrite <- app_assoc.
Qed.

(** At end of input the prompt for the topic or the location raises before
    any adapter is reached. *)
Lemma dispatch_eof (option : Z) (tr : list event) :
  option = 2%Z ∨ option = 3%Z →
  ∃ prompt,
    dispatch py w option (Console [] tr)
    = (Raise EOFError, Console [] (tr ++ [Prompted prompt])).
Proof. intros [-> | ->]; eexists; reflexivity. Qed.

Lemma dispatch_other (option : Z) (c : console) :
  option ≠ 1%Z → option ≠ 2%Z → option ≠ 3%Z →
  dispatch py w option c = (Ok (), emit [Printed invalid_option] c).
Proof.
  intros H1 H2 H3. unfold dispatch.
  by rewrite !bool_decide_eq_false_2.
Qed.

(** ** The loops that print *)

Lemma calls_quote_lines (quotes : list PriceQuote) :
  calls (quote_line <$> quotes) = [].
Proof. by induction quotes. Qed.

Lemma requests_quote_lines (quotes : list PriceQuote) :
  requests (quote_line <$> quotes) = [].
Proof. by induction quotes. Qed.

Lemma for_each_print_quote (quotes : list PriceQuote) (c : console) :
  Forall (λ q, quote_writable py q = true) quotes →
  for_each quotes (print_quote py) c = (Ok (), emit (quote_line <$> quotes) c).
Proof.
  intros Hq. revert c. induction Hq as [|q quotes Hw _ IH]; intros c.
  - simpl. by rewrite emit_nil.
  - simpl. unfold mbind, shell_bind, print_quote.
    rewrite print_writable by by rewrite writable_quote.
    by rewrite IH, emit_emit.
Qed.

Lemma article_lines_app (l l' : list pyval) :
  article_lines (l ++ l') = article_lines l ++ article_lines l'.
Proof. apply omap_app. Qed.

Lemma article_lines_cons (a : pyval) (l : list pyval) (title source_name : pyval) :
  article_fields a = Some (title, source_name) →
  article_lines (a :: l)
  = Printed (article_fragments title source_name) :: article_lines l.
Proof. intros Hf. unfold article_lines. simpl. by rewrite Hf. Qed.

Lemma calls_article_lines (l : list pyval) : calls (article_lines l) = [].
Proof.
  induction l as [|a l IH]; [done|].
  unfold article_lines. simpl.
  by destruct (article_fields a) as [[title source_name]|].
Qed.

Lemma requests_article_lines (l : list pyval) : requests (article_lines l) = [].
Proof.
  induction l as [|a l IH]; [done|].
  unfold article_lines. simpl.
  by destruct (article_fields a) as [[title source_name]|].
Qed.

Lemma printable_fields (a : pyval) :
  article_printable py a = true →
  ∃ title source_name,
    article_fields a = Some (title, source_name) ∧
    writable py title = true ∧ writable py source_name = true.
Proof.
  unfold article_printable.
  destruct (article_fields a) as [[title source_name]|]; [|done].
  intros [Ht Hn]%andb_true_iff. by exists title, source_name.
Qed.


Lemma length_article_lines_le (l : list pyval) :
  length (article_lines l) ≤ length l.
Proof.
  induction l as [|a l IH]; [done|].
  change (a :: l) with ([a] ++ l). rewrite article_lines_app, !length_app.
  assert (length (article_lines [a]) ≤ 1).
  { unfold article_lines. simpl.
    destruct (article_fields a) as [[title source_name]|]; simpl; lia. }
  change (length [a]) with 1. lia.
Qed.

Lemma article_lines_printed (l : list pyval) :
  Forall (λ ev, ∃ title source_name,
            ev = Printed (article_fragments title source_name))
         (article_lines l).
Proof.
  induction l as [|a l IH]; [constructor|].
  change (a :: l) with ([a] ++ l). rewrite article_lines_app.
  apply Forall_app. split; [|done].
  unfold article_lines. simpl.
  destruct (article_fields a) as [[title source_name]|]; simpl;
    repeat constructor. by exists title, source_name.
Qed.

Lemma print_article_fields (article title source_name : pyval) (c : console) :
  article_fields article = Some (title, source_name) →
  print_article py article c = print py (article_fragments title source_name) c.
Proof.
  unfold article_fields, print_article. intros Hf.
  destruct article; try done.
  cbv [mbind shell_bind lift py_getitem].
  destruct (dict_lookup entries (lit "title")); [|done].
  destruct (dict_lookup entries (lit "source")) as [[]|]; try done.
  destruct (dict_lookup _ (lit "name")); [|done].
  by simplify_eq.
Qed.

Lemma print_article_missing (article : pyval) (c : console) :
  article_fields article = None →
  ∃ e, print_article py article c = (Raise e, c) ∧ subscript_error e ∧
       (∀ entries, article = PDict entries →
          (∀ source, dict_lookup entries (lit "source") = Some source →
                     ∃ fields, source = PDict fields) →
          ∃ key, e = KeyError key).
Proof.
  unfold article_fields, print_article, subscript_error. intros Hf.
  cbv [mbind shell_bind lift py_getitem].
  destruct article as [| | | | |items|entries];
    try (exists TypeError; split_and!; [done|tauto|done]).
  destruct (dict_lookup entries (lit "title")) as [title|].
  2: { exists (KeyError (lit "title")). split_and!; [done|tauto|eauto]. }
  destruct (dict_lookup entries (lit "source")) as [source|] eqn:Hs.
  2: { exists (KeyError (lit "source")). split_and!; [done|tauto|eauto]. }
  destruct source as [| | | | |items|fields];
    try (exists TypeError; split_and!; [done|tauto|];
         intros ? [= <-] Hobj; by destruct (Hobj _ Hs)).
  destruct (dict_lookup fields (lit "name")); [done|].
  exists (KeyError (lit "name")). split_and!; [done|tauto|eauto].
Qed.

(** An article that cannot be printed: a subscript fails, or the line
    cannot be encoded.  Either way nothing is written. *)
Lemma print_article_unprintable (article : pyval) (c : console) :
  article_printable py article = false →
  ∃ e, print_article py article c = (Raise e, c).
Proof.
  unfold article_printable. intros Hp.
  destruct (article_fields article) as [[title source_name]|] eqn:Hf.
  - exists UnicodeEncodeError. rewrite (print_article_fields _ _ _ _ Hf).
    apply print_unwritable. by rewrite writable_article.
  - destruct (print_article_missing article c Hf) as (e & He & _). by exists e.
Qed.

(** The loop over the articles prints a line per article until one cannot
    be printed; there it raises, with nothing more printed. *)
Lemma for_each_articles (articles : list pyval) (c : console) :
  (Forall (λ a, article_printable py a = true) articles ∧
   for_each articles (print_article py) c
     = (Ok (), emit (article_lines articles) c)) ∨
  (∃ good bad later e,
     articles = good ++ bad :: later ∧
     Forall (λ a, article_printable py a = true) good ∧
     article_printable py bad = false ∧
     print_article py bad (emit (article_lines good) c)
       = (Raise e, emit (article_lines good) c) ∧
     for_each articles (print_article py) c
       = (Raise e, emit (article_lines good) c)).
Proof.
  revert c. induction articles as [|a articles IH]; intros c.
  { left. split; [constructor|]. simpl. by rewrite emit_nil. }
  destruct (article_printable py a) eqn:Ha.
  - destruct (printable_fields a Ha) as (title & source_name & Hf & Ht & Hn).
    assert (Hstep : for_each (a :: articles) (print_article py) c
                    = for_each articles (print_article py)
                        (emit [Printed (article_fragments title source_name)] c)).
    { simpl. unfold mbind, shell_bind.
      rewrite (print_article_fields _ _ _ _ Hf).
      rewrite print_writable; [done|].
      by rewrite writable_article, Ht, Hn. }
    rewrite Hstep.
    destruct (IH (emit [Printed (article_fragments title source_name)] c))
      as [[Hall Hrun] | (good & bad & later & e & -> & Hgood & Hbad & Hone & Hrun)].
    + left. split; [by constructor|].
      by rewrite Hrun, emit_emit, (article_lines_cons _ _ _ _ Hf).
    + right. exists (a :: good), bad, later, e.
      rewrite (article_lines_cons _ _ _ _ Hf). rewrite emit_emit in Hone, Hrun.
      split_and!; [done|by constructor|done|done|done].
  - right. exists [], a, articles.
    destruct (print_article_unprintable a c Ha) as (e & Hone).
    exists e. simpl. rewrite emit_nil.
    split_and!; [done|constructor|done|done|].
    unfold mbind, shell_bind. by rewrite Hone.
Qed.


(** The loop stops at a prefix of the articles. *)
Lemma for_each_articles_prefix (articles : list pyval) (c : console) :
  ∃ shown, shown `prefix_of` articles ∧
           (for_each articles (print_article py) c).2
           = emit (article_lines shown) c.
Proof.
  destruct (for_each_articles articles c)
    as [[_ ->] | (good & bad & later & e & -> & _ & _ & _ & ->)].
  - by exists articles.
  - exists good. split; [|done]. by apply prefix_app_r.
Qed.

(** What the news adapter returns can always be iterated: it is a list,
    or the leading characters of a string. *)
Lemma news_result_iterable (topic lang_code : option pystr) :
  ∃ returned articles,
    result w (get_latest_news topic lang_code) = Ok returned ∧
    py_iter returned = Ok articles.
Proof.
  rewrite result_get_latest_news. unfold news_try.
  destruct (w _) as [resp|e]; simpl; [|by exists (PList []), []].
  destruct (json resp) as [data|e]; simpl; [|by exists (PList []), []].
  destruct data; simpl; try by exists (PList []), [].
  destruct (default (PList []) (dict_lookup entries (lit "articles")));
    simpl; try (by exists (PList []), []); by eexists _, _.
Qed.

(** ** Sessions, choice by choice *)

Lemma session_crypto (line : pystr) (rest : list pystr) (quotes : list PriceQuote) :
  int_of py line = Some 1%Z →
  result w fetch_crypto_prices = Ok quotes →
  session py w (line :: rest)
  = for_each quotes (print_quote py) (Console rest crypto_shown).
Proof.
  intros Hint Hq. rewrite session_menu, Hint, (dispatch_crypto _ _ Hq).
  unfold emit, at_menu, crypto_shown. cbn [stdin trace].
  by rewrite <- app_assoc.
Qed.

Lemma session_news (line topic : pystr) (rest : list pystr)
    (returned : pyval) (articles : list pyval) :
  int_of py line = Some 2%Z →
  result w (get_latest_news (Some topic) None) = Ok returned →
  py_iter returned = Ok articles →
  writable py (PStr topic) = true →
  session py w (line :: topic :: rest)
  = for_each articles (print_article py) (Console rest (news_shown topic)).
Proof.
  intros Hint Hr Hiter Hw. rewrite session_menu, Hint. unfold at_menu.
  rewrite (dispatch_news _ _ _ _ _ Hr Hiter).
  unfold mbind, shell_bind.
  rewrite print_writable by by rewrite writable_news_heading.
  unfold emit, news_shown. cbn [stdin trace].
  by rewrite <- !app_assoc.
Qed.

Lemma session_weather (line location : pystr) (rest : list pystr)
    (data : pyval) :
  int_of py line = Some 3%Z →
  result w (get_latest_weather (Some location)) = Ok data →
  writable py (PStr location) = true →
  session py w (line :: location :: rest)
  = print py [Str data] (Console rest (weather_fetched location)).
Proof.
  intros Hint Hd Hw. rewrite session_menu, Hint. unfold at_menu.
  rewrite (dispatch_weather _ _ _ _ Hd).
  unfold mbind, shell_bind.
  rewrite print_writable by by rewrite writable_weather_heading.
  unfold emit, weather_fetched. cbn [stdin trace].
  by rewrite <- !app_assoc.
Qed.

(** Where a session leaves the terminal: the lines it asked for are gone,
    the banner and the menu prompt come first, and what follows holds the
    coroutines read off the input, each with its one request. *)
Lemma session_console (lines : list pystr) :
  ∃ tr,
    (session py w lines).2
      = Console (drop (lines_wanted py lines) lines)
                (banner ++ Prompted menu_prompt :: tr) ∧
    calls tr = expected_calls py lines ∧
    requests tr = expected_calls py lines ≫= adapter_request.
Proof.
  assert (Hshape : ∀ (m : shell ()) rest mid cs,
            prints_only m →
            calls mid = cs → requests mid = cs ≫= adapter_request →
            ∃ tr,
              (m (Console rest ((banner ++ [Prompted menu_prompt]) ++ mid))).2
                = Console rest (banner ++ Prompted menu_prompt :: tr) ∧
              calls tr = cs ∧ requests tr = cs ≫= adapter_request).
  { intros m rest mid cs Hm Hc Hr.
    destruct (Hm (Console rest ((banner ++ [Prompted menu_prompt]) ++ mid)))
      as (evs & -> & [Hce Hre]).
    exists (mid ++ evs). unfold emit. cbn [stdin trace].
    rewrite <- !app_assoc. split_and!; [done| |].
    - by rewrite calls_app, Hce, app_nil_r.
    - by rewrite requests_app, Hre, app_nil_r. }
  destruct lines as [|line rest].
  { exists []. by rewrite session_eof. }
  rewrite session_menu. unfold expected_calls, lines_wanted, at_menu.
  destruct (int_of py line) as [option|].
  2: { exists [Printed invalid_input]. unfold emit.
       cbn [snd stdin trace drop]. by rewrite <- app_assoc. }
  destruct (decide (option = 1%Z)) as [->|H1];
    [|destruct (decide (option = 2%Z)) as [->|H2];
      [|destruct (decide (option = 3%Z)) as [->|H3]]].
  - destruct (fetch_crypto_prices_returns w) as [quotes Hq].
    rewrite (dispatch_crypto quotes _ Hq).
    rewrite bool_decide_eq_false_2 by (intros [?|?]; done).
    rewrite bool_decide_eq_true_2 by done.
    unfold emit. cbn [stdin trace drop].
    apply Hshape; [|done..].
    apply prints_only_for_each. intros q. apply prints_only_print.
  - rewrite (bool_decide_eq_true_2 (_ ∨ _)) by by left.
    rewrite (bool_decide_eq_false_2 (2%Z = 1%Z)) by done.
    rewrite (bool_decide_eq_true_2 (2%Z = 2%Z)) by done.
    destruct rest as [|topic rest].
    { by exists [Prompted topic_prompt]. }
    destruct (news_result_iterable (Some topic) None)
      as (returned & articles & Hr & Hiter).
    rewrite (dispatch_news _ _ _ _ _ Hr Hiter). cbn [drop].
    apply Hshape; [|done..].
    apply prints_only_bind; [apply prints_only_print|intros _].
    apply prints_only_for_each. apply prints_only_print_article.
  - rewrite (bool_decide_eq_true_2 (_ ∨ _)) by by right.
    rewrite (bool_decide_eq_false_2 (3%Z = 1%Z)) by done.
    rewrite (bool_decide_eq_false_2 (3%Z = 2%Z)) by done.
    rewrite (bool_decide_eq_true_2 (3%Z = 3%Z)) by done.
    destruct rest as [|location rest].
    { by exists [Prompted location_prompt]. }
    destruct (get_latest_weather_returns w (Some location)) as [data Hd].
    rewrite (dispatch_weather _ _ _ _ Hd). cbn [drop].
    apply Hshape; [|done..].
    apply prints_only_bind; [apply prints_only_print|intros _].
    apply prints_only_print.
  - rewrite dispatch_other by done.
    rewrite (bool_decide_eq_false_2 (_ ∨ _)) by (intros [?|?]; done).
    rewrite !bool_decide_eq_false_2 by done.
    exists [Printed invalid_option]. unfold emit.
    cbn [snd stdin trace drop]. by rewrite <- app_assoc.
Qed.

(** The coroutines a session enters are those read off the input, and the
    requests it sends are theirs. *)
Lemma session_calls (lines : list pystr) :
  calls (trace (session py w lines).2) = expected_calls py lines ∧
  requests (trace (session py w lines).2)
    = expected_calls py lines ≫= adapter_request.
Proof.
  destruct (session_console lines) as (tr & -> & Hc & Hr). cbn [trace].
  split.
  - rewrite calls_app. by rewrite <- Hc.
  - rewrite requests_app. by rewrite <- Hr.
Qed.

End Shell.

(** ** The loop over the articles, by where it stops *)






Lemma py_int_Ok (py : interpreter) (s : pystr) (n : Z) :
  py_int py s = Ok n ↔ int_of py s = Some n.
Proof. unfold py_int. destruct (int_of py s); split; congruence. Qed.

Lemma py_int_raised (py : interpreter) (s : pystr) :
  raised (py_int py s) ↔ int_of py s = None.
Proof.
  unfold py_int, raised. destruct (int_of py s); split; try done.
  - by intros [e ?].
  - by exists ValueError.
Qed.

(** C7.  A line at the menu prompt that [int] rejects: the shell prints the
    invalid-input message and returns, having entered no adapter, sent no
    request and read no further line.  A line that [int] reads as an integer
    other than 1, 2 and 3: the shell prints the invalid-option message and
    returns, again without entering an adapter.  This holds whatever [int]
    accepts. *)
Theorem invalid_menu_line
    (py : interpreter) (w : world) (line : pystr) (rest : list pystr) :
  (raised (py_int py line) →
     session py w (line :: rest)
       = (Ok (), Console rest (banner ++ [Prompted menu_prompt;
                                          Printed invalid_input])) ∧
     calls (trace (session py w (line :: rest)).2) = [] ∧
     requests (trace (session py w (line :: rest)).2) = []) ∧
  (∀ option, py_int py line = Ok option →
     option ≠ 1%Z → option ≠ 2%Z → option ≠ 3%Z →
     session py w (line :: rest)
       = (Ok (), Console rest (banner ++ [Prompted menu_prompt;
                                          Printed invalid_option])) ∧
     calls (trace (session py w (line :: rest)).2) = [] ∧
     requests (trace (session py w (line :: rest)).2) = []).
Proof.
  rewrite session_menu. split.
  - intros ->%py_int_raised. done.
  - intros option ->%py_int_Ok H1 H2 H3. by rewrite dispatch_other.
Qed.

(** The line "x" gets the invalid-input message and the line "9" the
    invalid-option message; the line typed after them is left unread.  So
    does a nine after the separator U+001C, which [int] rejects, and a
    fullwidth nine (U+FF19), which [int] reads as 9. *)
Lemma invalid_menu_line_witness :
  session cpython offline [lit "x"; lit "1"]
    = (Ok (), Console [lit "1"] (banner ++ [Prompted menu_prompt;
                                            Printed invalid_input])) ∧
  session cpython offline [lit "9"; lit "1"]
    = (Ok (), Console [lit "1"] (banner ++ [Prompted menu_prompt;
                                            Printed invalid_option])) ∧
  session cpython offline [[28; 57]%N; lit "1"]
    = (Ok (), Console [lit "1"] (banner ++ [Prompted menu_prompt;
                                            Printed invalid_input])) ∧
  session cpython offline [[65305%N]; lit "1"]
    = (Ok (), Console [lit "1"] (banner ++ [Prompted menu_prompt;
                                            Printed invalid_option])).
Proof.
  split_and!.
  - apply (invalid_menu_line cpython offline (lit "x") [lit "1"]).
    by exists ValueError.
  - by apply (proj2 (invalid_menu_line cpython offline (lit "9") [lit "1"]) 9%Z).
  - apply (invalid_menu_line cpython offline [28; 57]%N [lit "1"]).
    by exists ValueError.
  - by apply (proj2 (invalid_menu_line cpython offline [65305%N] [lit "1"]) 9%Z).
Defined.

(** C6, as claimed: an operator who gives no location (or no topic) gets the
    default "Addis Ababa" (or "technology").  It fails: with an empty line
    the adapter runs with the empty string, and the request carrying the
    default is never sent. *)
Lemma cli_default_counterexample :
  py_int cpython (lit "3") = Ok 3%Z ∧
  calls (trace (session cpython offline [lit "3"; []]).2)
    = [get_latest_weather_ []] ∧
  requests (trace (session cpython offline [lit "3"; []]).2)
    = [weather_request []] ∧
  (weather_request (lit "Addis Ababa")
     ∉ requests (trace (session cpython offline [lit "3"; []]).2)) ∧
  py_int cpython (lit "2") = Ok 2%Z ∧
  calls (trace (session cpython offline [lit "2"; []]).2)
    = [get_latest_news_ [] (lit "en")] ∧
  (news_request (lit "technology") (lit "en")
     ∉ requests (trace (session cpython offline [lit "2"; []]).2)).
Proof.
  split_and!; try reflexivity.
  - intros Hin. apply list_elem_of_singleton in Hin. discriminate.
  - intros Hin. apply list_elem_of_singleton in Hin. discriminate.
Qed.

(** C6, amended.  The shell hands the line typed at the topic or location
    prompt to the adapter as it is, the empty line included: the adapter
    runs with that string and sends it as "q".  The defaults "Addis Ababa"
    and "technology" (with "en") are what an adapter, or [fetch_all_data],
    runs with when it is called without the argument, which the shell never
    does. *)
Theorem cli_passes_line_verbatim
    (py : interpreter) (w : world) (line answer : pystr) (rest : list pystr) :
  (py_int py line = Ok 3%Z →
     calls (trace (session py w (line :: answer :: rest)).2)
       = [get_latest_weather_ answer] ∧
     requests (trace (session py w (line :: answer :: rest)).2)
       = [weather_request answer]) ∧
  (py_int py line = Ok 2%Z →
     calls (trace (session py w (line :: answer :: rest)).2)
       = [get_latest_news_ answer (lit "en")] ∧
     requests (trace (session py w (line :: answer :: rest)).2)
       = [news_request answer (lit "en")]) ∧
  events w (get_latest_weather None)
    = [Entered (get_latest_weather_ (lit "Addis Ababa"));
       Sent (weather_request (lit "Addis Ababa"))] ∧
  events w (get_latest_news None None)
    = [Entered (get_latest_news_ (lit "technology") (lit "en"));
       Sent (news_request (lit "technology") (lit "en"))] ∧
  (∀ sched,
     fetch_all_data None None w sched
     = fetch_all_data (Some (lit "technology")) (Some (lit "Addis Ababa"))
                      w sched).
Proof.
  destruct (session_calls py w (line :: answer :: rest)) as [Hc Hr].
  rewrite Hc, Hr. unfold expected_calls.
  split_and!; [| |reflexivity..].
  - intros ->%py_int_Ok. done.
  - intros ->%py_int_Ok. done.
Qed.

(** The location "Oslo" after the choice 3, the empty topic after the
    choice 2, and "Oslo" again after a choice typed as the Arabic-Indic
    digit three (U+0663), which [int] reads as 3. *)
Lemma cli_passes_line_verbatim_witness :
  requests (trace (session cpython weather_200 [lit "3"; lit "Oslo"]).2)
    = [weather_request (lit "Oslo")] ∧
  requests (trace (session cpython (news_of (PList eight_articles))
                     [lit "2"; []]).2)
    = [news_request [] (lit "en")] ∧
  requests (trace (session cpython weather_200 [[1635%N]; lit "Oslo"]).2)
    = [weather_request (lit "Oslo")].
Proof.
  split_and!.
  - by apply (cli_passes_line_verbatim cpython weather_200 (lit "3") (lit "Oslo") []).
  - by apply (cli_passes_line_verbatim cpython (news_of (PList eight_articles))
                (lit "2") [] []).
  - by apply (cli_passes_line_verbatim cpython weather_200 [1635%N] (lit "Oslo") []).
Defined.

(** C8, as claimed: every valid menu choice enters exactly one adapter.  It
    fails when the input ends after the choice: "2" is a valid choice, the
    topic prompt raises [EOFError], and no adapter has been entered. *)
Lemma one_adapter_counterexample :
  py_int cpython (lit "2") = Ok 2%Z ∧
  (session cpython offline [lit "2"]).1 = Raise EOFError ∧
  calls (trace (session cpython offline [lit "2"]).2) = [] ∧
  requests (trace (session cpython offline [lit "2"]).2) = [].
Proof. by split_and!. Qed.

(** C8, amended.  Whatever the operator types, the shell never enters
    [fetch_all_data] and enters at most one coroutine.  Choice 1 enters
    [fetch_crypto_prices] and nothing else; choice 2 followed by a topic
    line enters [get_latest_news] with that topic and nothing else; choice 3
    followed by a location line enters [get_latest_weather] with that
    location and nothing else.  When the input ends after choice 2 or 3,
    nothing is entered.  A choice is what [int] makes of the menu line. *)
Theorem shell_enters_one_adapter
    (py : interpreter) (w : world) (lines : list pystr) :
  (∀ topic location,
     (fetch_all_data_ topic location ∉ calls (trace (session py w lines).2))) ∧
  length (calls (trace (session py w lines).2)) ≤ 1 ∧
  (∀ line rest, lines = line :: rest → py_int py line = Ok 1%Z →
     calls (trace (session py w lines).2) = [fetch_crypto_prices_]) ∧
  (∀ line topic rest, lines = line :: topic :: rest → py_int py line = Ok 2%Z →
     calls (trace (session py w lines).2) = [get_latest_news_ topic (lit "en")]) ∧
  (∀ line location rest,
     lines = line :: location :: rest → py_int py line = Ok 3%Z →
     calls (trace (session py w lines).2) = [get_latest_weather_ location]) ∧
  (∀ line, lines = [line] → py_int py line = Ok 2%Z ∨ py_int py line = Ok 3%Z →
     calls (trace (session py w lines).2) = []).
Proof.
  rewrite (proj1 (session_calls py w lines)). split_and!.
  - intros topic location. unfold expected_calls.
    repeat case_match;
      first [ apply not_elem_of_nil
            | apply not_elem_of_cons; split; [done|apply not_elem_of_nil] ].
  - unfold expected_calls. repeat case_match; simpl; lia.
  - intros line rest -> Hint%py_int_Ok. simpl. by rewrite Hint.
  - intros line topic rest -> Hint%py_int_Ok. simpl. by rewrite Hint.
  - intros line location rest -> Hint%py_int_Ok. simpl. by rewrite Hint.
  - intros line -> [Hint%py_int_Ok | Hint%py_int_Ok]; simpl; by rewrite Hint.
Qed.

Lemma shell_enters_one_adapter_witness :
  calls (trace (session cpython offline [lit "1"]).2) = [fetch_crypto_prices_] ∧
  calls (trace (session cpython offline [lit " 2 "; lit "sports"]).2)
    = [get_latest_news_ (lit "sports") (lit "en")] ∧
  calls (trace (session cpython offline [lit "3"; lit "Addis Ababa"; lit "1"]).2)
    = [get_latest_weather_ (lit "Addis Ababa")] ∧
  calls (trace (session cpython offline [lit "3"]).2) = [].
Proof.
  split_and!.
  - destruct (shell_enters_one_adapter cpython offline [lit "1"])
      as (_ & _ & H & _).
    by apply (H (lit "1") []).
  - destruct (shell_enters_one_adapter cpython offline [lit " 2 "; lit "sports"])
      as (_ & _ & _ & H & _).
    by apply (H (lit " 2 ") (lit "sports") []).
  - destruct (shell_enters_one_adapter cpython offline
                [lit "3"; lit "Addis Ababa"; lit "1"])
      as (_ & _ & _ & _ & H & _).
    by apply (H (lit "3") (lit "Addis Ababa") [lit "1"]).
  - destruct (shell_enters_one_adapter cpython offline [lit "3"])
      as (_ & _ & _ & _ & _ & H).
    apply (H (lit "3")); [done|by right].
Defined.




(** What the first of these runs raises. *)
Example three_articles_session :
  session cpython (news_of (PList three_articles)) [lit "2"; lit "ai"]
  = (Raise (KeyError (lit "title")),
     Console [] (news_shown (lit "ai")
                 ++ [Printed (article_fragments (PStr (lit "one"))
                                                (PStr (lit "A")))])).
Proof. reflexivity. Qed.

(** * Further properties of the adapters *)

Section MoreExtraction.

Lemma short_row_true (row : node) :
  short_row row = true ↔ 0 < length (find_all (lit "td") row) < 4.
Proof. unfold short_row. apply bool_decide_eq_true. Qed.

Lemma existsb_short_row (rows : list node) :
  existsb short_row rows = true ↔ ∃ row, row ∈ rows ∧ short_row row = true.
Proof.
  rewrite existsb_exists. split; intros (row & Hin & Hs); exists row;
    (split; [by apply list_elem_of_In|done]).
Qed.

Lemma no_short_row (rows : list node) :
  existsb short_row rows = false →
  Forall (λ row, find_all (lit "td") row = [] ∨ well_formed row) rows.
Proof.
  intros Hnone. apply Forall_forall. intros row Hin.
  destruct (find_all (lit "td") row) as [|c cols] eqn:Hcols; [by left|right].
  unfold well_formed. rewrite Hcols.
  destruct (decide (4 ≤ length (c :: cols))) as [|Hlt]; [done|].
  assert (existsb short_row rows = true) as Hsome; [|congruence].
  apply existsb_short_row. exists row. split; [done|].
  apply short_row_true. rewrite Hcols. simpl in *. lia.
Qed.

(** What the [try] block yields on a page that was fetched and parsed. *)
Lemma crypto_try_page (rows : list node) :
  extract_rows rows []
  = if existsb short_row rows then Raise IndexError
    else Ok (rows ≫= spec_row).
Proof.
  destruct (existsb short_row rows) eqn:Hshort.
  - apply existsb_short_row in Hshort as (row & Hin & Hs).
    apply short_row_true in Hs. by eapply extract_rows_short.
  - by rewrite extract_rows_spec by by apply no_short_row.
Qed.

Lemma length_spec_row (row : node) : length (spec_row row) ≤ 1.
Proof. unfold spec_row. repeat case_match; simpl; lia. Qed.

Lemma length_bind_spec_row (rows : list node) :
  length (rows ≫= spec_row) ≤ length rows.
Proof.
  induction rows as [|row rows IH]; [done|].
  rewrite bind_cons, length_app. pose proof (length_spec_row row).
  simpl. lia.
Qed.

Lemma length_bind_spec_row_gap (rows : list node) (row : node) :
  row ∈ rows → find_all (lit "td") row = [] →
  length (rows ≫= spec_row) < length rows.
Proof.
  intros Hin Hnone. induction rows as [|r rows IH]; [by apply elem_of_nil in Hin|].
  rewrite bind_cons, length_app. simpl.
  apply elem_of_cons in Hin as [<-|Hin].
  - unfold spec_row at 1. rewrite Hnone. simpl.
    pose proof (length_bind_spec_row rows). lia.
  - pose proof (length_spec_row r). specialize (IH Hin). lia.
Qed.

(** Every result of the adapter, in terms of the reply it got. *)
Lemma crypto_result_cases (w : world) :
  result w fetch_crypto_prices = Ok [] ∨
  ∃ resp doc,
    w crypto_request = Ok resp ∧ markup resp = Ok doc ∧
    existsb short_row (take 5 (find_all (lit "tr") doc)) = false ∧
    result w fetch_crypto_prices = Ok (take 5 (find_all (lit "tr") doc) ≫= spec_row).
Proof.
  rewrite result_fetch_crypto_prices. unfold crypto_try.
  destruct (w crypto_request) as [resp|e]; [|by left]. simpl.
  destruct (markup resp) as [doc|e] eqn:Hdoc; [|by left]. simpl.
  rewrite crypto_try_page.
  destruct (existsb short_row _) eqn:Hshort; [by left|].
  right. by exists resp, doc.
Qed.

End MoreExtraction.

(** X1.  On a page that was fetched and parsed the result is all or
    nothing: the empty list when one of the first five rows has a column
    but fewer than four, and otherwise the quotes of the rows among the
    first five that have columns, in order. *)
Theorem crypto_result_all_or_nothing (w : world) (resp : response) (doc : node) :
  w crypto_request = Ok resp →
  markup resp = Ok doc →
  result w fetch_crypto_prices
  = Ok (if existsb short_row (take 5 (find_all (lit "tr") doc)) then []
        else take 5 (find_all (lit "tr") doc) ≫= spec_row).
Proof.
  intros Hrp Hdoc. rewrite result_fetch_crypto_prices, Hrp.
  unfold crypto_try. simpl. rewrite Hdoc. simpl.
  rewrite crypto_try_page. by destruct (existsb short_row _).
Qed.

Lemma crypto_result_all_or_nothing_witness :
  result (serving short_third_row) fetch_crypto_prices = Ok [] ∧
  result (serving header_then_rows) fetch_crypto_prices
    = Ok [ Quote (lit "Bitcoin") (lit "$97,000"); Quote (lit "Ethereum") (lit "$3,400") ].
Proof.
  split.
  - apply (crypto_result_all_or_nothing (serving short_third_row)
             (Response 200 (Ok short_third_row) no_json) short_third_row
             eq_refl eq_refl).
  - apply (crypto_result_all_or_nothing (serving header_then_rows)
             (Response 200 (Ok header_then_rows) no_json) header_then_rows
             eq_refl eq_refl).
Defined.

(** X2.  Whatever the network does, the crypto adapter returns at most five
    quotes. *)
Theorem crypto_at_most_five (w : world) (quotes : list PriceQuote) :
  result w fetch_crypto_prices = Ok quotes → length quotes ≤ 5.
Proof.
  intros Hq.
  destruct (crypto_result_cases w) as [Hnil | (resp & doc & _ & _ & _ & Hres)].
  - rewrite Hnil in Hq. injection Hq as <-. simpl. lia.
  - rewrite Hres in Hq. injection Hq as <-.
    pose proof (length_bind_spec_row (take 5 (find_all (lit "tr") doc))).
    rewrite length_take in *. lia.
Qed.

Lemma crypto_at_most_five_witness :
  length [ Quote (lit "Bitcoin") (lit "$97,000"); Quote (lit "Ethereum") (lit "$3,400");
           Quote (lit "Tether") (lit "N/A"); Quote (lit "XRP") (lit "$2.30"); Quote (lit "BNB") (lit "$690") ] ≤ 5.
Proof.
  apply (crypto_at_most_five (serving five_rows)). reflexivity.
Defined.

(** X3.  A row without columns among the first five (a header row of th
    cells, say) still takes one of the five places: the adapter then returns
    at most four quotes, however many full rows follow. *)
Theorem crypto_header_row_takes_a_place
    (w : world) (resp : response) (doc : node) (row : node)
    (quotes : list PriceQuote) :
  w crypto_request = Ok resp →
  markup resp = Ok doc →
  row ∈ take 5 (find_all (lit "tr") doc) →
  find_all (lit "td") row = [] →
  result w fetch_crypto_prices = Ok quotes →
  length quotes ≤ 4.
Proof.
  intros Hrp Hdoc Hin Hnone Hq.
  destruct (crypto_result_cases w) as [Hnil | (resp' & doc' & Hrp' & Hdoc' & _ & Hres)].
  - rewrite Hnil in Hq. injection Hq as <-. simpl. lia.
  - rewrite Hrp in Hrp'. injection Hrp' as <-.
    rewrite Hdoc in Hdoc'. injection Hdoc' as <-.
    rewrite Hres in Hq. injection Hq as <-.
    pose proof (length_bind_spec_row_gap _ _ Hin Hnone) as Hlt.
    rewrite length_take in Hlt. lia.
Qed.

(** A header row and five full rows: the fifth full row is not quoted. *)
Lemma crypto_header_row_takes_a_place_witness :
  length [ Quote (lit "Bitcoin") (lit "$97,000"); Quote (lit "Ethereum") (lit "$3,400");
           Quote (lit "Tether") (lit "$1.00"); Quote (lit "XRP") (lit "$2.30") ] ≤ 4 ∧
  result (serving header_then_five) fetch_crypto_prices
    = Ok [ Quote (lit "Bitcoin") (lit "$97,000"); Quote (lit "Ethereum") (lit "$3,400");
           Quote (lit "Tether") (lit "$1.00"); Quote (lit "XRP") (lit "$2.30") ].
Proof.
  split; [|reflexivity].
  apply (crypto_header_row_takes_a_place (serving header_then_five)
           (Response 200 (Ok header_then_five) no_json) header_then_five
           header_row _ eq_refl eq_refl).
  - apply list_elem_of_lookup. by exists 0.
  - reflexivity.
  - reflexivity.
Defined.

Section MoreAdapters.

Context (w : world).

Lemma length_string_chars_take (n : nat) (s : pystr) :
  length (string_chars (take n s)) ≤ n.
Proof. unfold string_chars. rewrite length_fmap, length_take. lia. Qed.

(** What the news adapter returns when the body decoded to an object. *)
Lemma news_try_object (resp : response) (entries : list (pystr * pyval)) :
  json resp = Ok (PDict entries) →
  news_try (Ok resp)
  = match dict_lookup entries (lit "articles") with
    | Some (PList articles) => Ok (PList (take 5 articles))
    | Some (PStr s) => Ok (PStr (take 5 s))
    | Some _ => Raise TypeError
    | None => Ok (PList [])
    end.
Proof.
  intros Hjson. unfold news_try. simpl. rewrite Hjson. simpl.
  destruct (dict_lookup entries (lit "articles")) as [[]|]; reflexivity.
Qed.

Lemma weather_result_cases (location : option pystr) :
  result w (get_latest_weather location) = Ok (PDict []) ∨
  ∃ resp data,
    w (weather_request (default (lit "Addis Ababa") location)) = Ok resp ∧
    status resp = 200%Z ∧ json resp = Ok data ∧
    result w (get_latest_weather location) = Ok data.
Proof.
  rewrite result_get_latest_weather. unfold weather_try.
  destruct (w _) as [resp|e]; [|by left]. simpl.
  destruct (json resp) as [data|e] eqn:Hjson; [|by left]. simpl.
  case_bool_decide as Hst.
  - right. by exists resp, data.
  - left. by destruct data.
Qed.

End MoreAdapters.

(** X4.  Whatever the network does, what the news adapter returns can be
    iterated and has at most five items. *)
Theorem news_at_most_five (w : world) (topic lang_code : option pystr) :
  ∃ returned items,
    result w (get_latest_news topic lang_code) = Ok returned ∧
    py_iter returned = Ok items ∧
    length items ≤ 5.
Proof.
  assert (Hempty : ∃ returned items,
            Ok (PList []) = Ok returned ∧ py_iter returned = Ok items ∧
            length items ≤ 5).
  { exists (PList []), []. split_and!; [done..|simpl; lia]. }
  rewrite result_get_latest_news. unfold news_try.
  destruct (w _) as [resp|e]; [|done]. cbn [mbind outcome_bind].
  destruct (json resp) as [data|e]; [|done]. cbn [mbind outcome_bind].
  destruct data; try done. cbn [py_get mbind outcome_bind].
  destruct (default (PList []) (dict_lookup entries (lit "articles"))); try done.
  - exists (PStr (take 5 s)), (string_chars (take 5 s)).
    split_and!; [done..|]. apply length_string_chars_take.
  - exists (PList (take 5 items)), (take 5 items).
    split_and!; [done..|]. rewrite length_take. lia.
Qed.

(** X5.  The news adapter does not look at the HTTP status: two replies
    whose bodies decode alike give the same result, whatever their status
    lines. *)
Theorem news_ignores_status
    (w w' : world) (topic lang_code : option pystr) (resp resp' : response) :
  w (news_request (default (lit "technology") topic) (default (lit "en") lang_code))
    = Ok resp →
  w' (news_request (default (lit "technology") topic) (default (lit "en") lang_code))
    = Ok resp' →
  json resp = json resp' →
  result w (get_latest_news topic lang_code)
  = result w' (get_latest_news topic lang_code).
Proof.
  intros Hrp Hrp' Hjson. rewrite !result_get_latest_news, Hrp, Hrp'.
  unfold news_try. simpl. by rewrite Hjson.
Qed.

(** A 500 reply that carries articles is read like a 200 reply. *)
Lemma news_ignores_status_witness :
  result (always (Response 500 no_markup
                    (Ok (PDict [((lit "articles"), PList eight_articles)]))))
         (get_latest_news None None)
  = result (always (Response 200 no_markup
                      (Ok (PDict [((lit "articles"), PList eight_articles)]))))
           (get_latest_news None None).
Proof.
  by apply (news_ignores_status _ _ None None
              (Response 500 no_markup
                 (Ok (PDict [((lit "articles"), PList eight_articles)])))
              (Response 200 no_markup
                 (Ok (PDict [((lit "articles"), PList eight_articles)])))).
Defined.

(** X6.  When the body decodes to an object, the value under "articles"
    decides the result: an array gives its first five entries, a string
    gives its first five characters, a missing key gives the empty list,
    and any other value (null, a number, an object) makes the slice raise
    and gives the empty list. *)
Theorem news_by_articles_value
    (w : world) (topic lang_code : option pystr) (resp : response)
    (entries : list (pystr * pyval)) :
  w (news_request (default (lit "technology") topic) (default (lit "en") lang_code))
    = Ok resp →
  json resp = Ok (PDict entries) →
  result w (get_latest_news topic lang_code)
  = Ok (match dict_lookup entries (lit "articles") with
        | Some (PList articles) => PList (take 5 articles)
        | Some (PStr s) => PStr (take 5 s)
        | _ => PList []
        end).
Proof.
  intros Hrp Hjson.
  rewrite result_get_latest_news, Hrp, (news_try_object _ _ Hjson).
  by destruct (dict_lookup entries (lit "articles")) as [[]|].
Qed.

(** Of a string with accented letters the first five characters come
    back, each a code point of its own. *)
Lemma news_by_articles_value_witness :
  result (news_of (PStr accented)) (get_latest_news None None)
    = Ok (PStr [104; 233; 108; 108; 111]%N) ∧
  result (news_of PNone) (get_latest_news None None) = Ok (PList []).
Proof.
  split.
  - apply (news_by_articles_value (news_of (PStr accented)) None None
             (Response 200 no_markup (Ok (news_body (PStr accented))))
             _ eq_refl eq_refl).
  - apply (news_by_articles_value (news_of PNone) None None
             (Response 200 no_markup (Ok (news_body PNone)))
             _ eq_refl eq_refl).
Defined.

(** X7.  Weather data other than the empty dict is always the decoded body
    of a reply with status 200. *)
Theorem weather_data_is_a_200_body
    (w : world) (location : option pystr) (data : pyval) :
  result w (get_latest_weather location) = Ok data →
  data ≠ PDict [] →
  ∃ resp,
    w (weather_request (default (lit "Addis Ababa") location)) = Ok resp ∧
    status resp = 200%Z ∧
    json resp = Ok data.
Proof.
  intros Hr Hne.
  destruct (weather_result_cases w location)
    as [Hnil | (resp & data' & Hrp & Hst & Hjson & Hres)].
  - rewrite Hnil in Hr. by injection Hr as <-.
  - rewrite Hres in Hr. injection Hr as <-. by exists resp.
Qed.

Lemma weather_data_is_a_200_body_witness :
  ∃ resp,
    weather_200 (weather_request (lit "Addis Ababa")) = Ok resp ∧
    status resp = 200%Z ∧ json resp = Ok weather_200_body.
Proof.
  by apply (weather_data_is_a_200_body weather_200 None weather_200_body).
Defined.


(** * Further properties of the shell *)

Section MoreShell.

Context (py : interpreter) (w : world).

Lemma news_items_bounded (topic lang_code : option pystr)
    (returned : pyval) (items : list pyval) :
  result w (get_latest_news topic lang_code) = Ok returned →
  py_iter returned = Ok items →
  length items ≤ 5.
Proof.
  rewrite result_get_latest_news. unfold news_try.
  assert (Hempty : Ok (PList []) = Ok returned → py_iter returned = Ok items →
                   length items ≤ 5).
  { intros [= <-] [= <-]. simpl. lia. }
  destruct (w _) as [resp|e]; [|done]. cbn [mbind outcome_bind].
  destruct (json resp) as [data|e]; [|done]. cbn [mbind outcome_bind].
  destruct data; try done. cbn [py_get mbind outcome_bind].
  destruct (default (PList []) (dict_lookup entries (lit "articles"))); try done.
  - clear Hempty. intros Hr Hi. injection Hr as <-.
    cbn [py_iter] in Hi. injection Hi as <-.
    apply (length_string_chars_take 5 s).
  - clear Hempty. intros Hr Hi. injection Hr as <-.
    cbn [py_iter] in Hi. injection Hi as <-. rewrite length_take. lia.
Qed.

(** The loop over the quotes stops at the first it cannot encode. *)
Lemma for_each_print_quote_stop
    (good : list PriceQuote) (bad : PriceQuote) (later : list PriceQuote)
    (c : console) :
  Forall (λ q, quote_writable py q = true) good →
  quote_writable py bad = false →
  for_each (good ++ bad :: later) (print_quote py) c
  = (Raise UnicodeEncodeError, emit (quote_line <$> good) c).
Proof.
  intros Hgood Hbad. revert c. induction Hgood as [|q good Hq _ IH]; intros c.
  - simpl. unfold mbind, shell_bind, print_quote.
    rewrite print_unwritable by by rewrite writable_quote.
    by rewrite emit_nil.
  - change (for_each ((q :: good) ++ bad :: later) (print_quote py) c)
      with ((print_quote py q
             ≫= λ _, for_each (good ++ bad :: later) (print_quote py)) c).
    unfold mbind at 1, shell_bind, print_quote at 1.
    rewrite print_writable by by rewrite writable_quote.
    by rewrite IH, emit_emit.
Qed.

Lemma lines_wanted_bounds (lines : list pystr) : 1 ≤ lines_wanted py lines ≤ 2.
Proof. unfold lines_wanted. repeat case_match; lia. Qed.

Lemma lines_wanted_two (line : pystr) (rest : list pystr) :
  lines_wanted py (line :: rest) = 2
  ↔ int_of py line = Some 2%Z ∨ int_of py line = Some 3%Z.
Proof.
  unfold lines_wanted.
  destruct (int_of py line) as [option|]; [|split; [done|by intros [?|?]]].
  case_bool_decide as Hopt.
  - split; [|done]. intros _. destruct Hopt as [-> | ->]; auto.
  - split; [done|]. intros [[= ->]|[= ->]]; destruct Hopt; auto.
Qed.

End MoreShell.

(** X8.  Whatever the operator types and whatever the network does, a
    session first prints the five lines of the menu and shows the menu
    prompt; everything else it does comes after. *)
Theorem session_starts_with_menu
    (py : interpreter) (w : world) (lines : list pystr) :
  ∃ tr, trace (session py w lines).2 = banner ++ Prompted menu_prompt :: tr.
Proof.
  destruct (session_console py w lines) as (tr & Hcon & _).
  exists tr. by rewrite Hcon.
Qed.

(** X9.  A session takes from standard input the line of the menu choice
    and, exactly when [int] reads that line as 2 or 3, one more line; the
    lines after those are left unread. *)
Theorem session_reads_what_it_asks
    (py : interpreter) (w : world) (lines : list pystr) :
  stdin (session py w lines).2 = drop (lines_wanted py lines) lines ∧
  1 ≤ lines_wanted py lines ≤ 2 ∧
  (∀ line rest, lines = line :: rest →
     (lines_wanted py lines = 2
      ↔ py_int py line = Ok 2%Z ∨ py_int py line = Ok 3%Z)).
Proof.
  destruct (session_console py w lines) as (tr & Hcon & _).
  split; [by rewrite Hcon|]. split; [apply lines_wanted_bounds|].
  intros line rest ->. rewrite !py_int_Ok. apply lines_wanted_two.
Qed.

(** After "9" nothing more is read; after "3" the location is.  A three
    after the separator U+001C is not a number to [int]: the location stays
    unread.  The Arabic-Indic digit three (U+0663) is one: the location is
    read. *)
Lemma session_reads_what_it_asks_witness :
  stdin (session cpython offline [lit "9"; lit "2"; lit "ai"]).2
    = [lit "2"; lit "ai"] ∧
  stdin (session cpython offline [lit "3"; lit "Oslo"; lit "1"]).2 = [lit "1"] ∧
  stdin (session cpython offline [[28; 51]%N; lit "Oslo"]).2 = [lit "Oslo"] ∧
  stdin (session cpython offline [[1635%N]; lit "Oslo"; lit "1"]).2 = [lit "1"] ∧
  lines_wanted cpython [lit "3"; lit "Oslo"; lit "1"] = 2.
Proof.
  split_and!.
  - apply (session_reads_what_it_asks cpython offline
             [lit "9"; lit "2"; lit "ai"]).
  - apply (session_reads_what_it_asks cpython offline
             [lit "3"; lit "Oslo"; lit "1"]).
  - apply (session_reads_what_it_asks cpython offline [[28; 51]%N; lit "Oslo"]).
  - apply (session_reads_what_it_asks cpython offline
             [[1635%N]; lit "Oslo"; lit "1"]).
  - destruct (session_reads_what_it_asks cpython offline
                [lit "3"; lit "Oslo"; lit "1"]) as (_ & _ & Hwanted).
    apply (Hwanted (lit "3") [lit "Oslo"; lit "1"] eq_refl). by right.
Defined.

(** X10.  The requests a session sends are those of the adapters it enters,
    one each and nothing besides: at most one request goes out, and never
    the one to the crypto news page. *)
Theorem session_requests_follow_calls
    (py : interpreter) (w : world) (lines : list pystr) :
  requests (trace (session py w lines).2)
    = calls (trace (session py w lines).2) ≫= adapter_request ∧
  length (requests (trace (session py w lines).2)) ≤ 1 ∧
  (crypto_news_request ∉ requests (trace (session py w lines).2)).
Proof.
  destruct (session_calls py w lines) as [Hc Hr].
  rewrite Hr, Hc. split_and!; [done| |].
  - unfold expected_calls. repeat case_match; simpl; lia.
  - unfold expected_calls.
    repeat case_match;
      first [ apply not_elem_of_nil
            | apply not_elem_of_cons; split; [done|apply not_elem_of_nil] ].
Qed.

(** X11.  After choice 1 the shell prints the heading and then one line per
    quote the adapter returned, at most five, and returns, when standard
    output can encode every name and price; when the fetch failed it prints
    the heading alone.  At the first quote that cannot be encoded
    [UnicodeEncodeError] leaves the shell, after the lines of the quotes
    before it. *)
Theorem crypto_choice_prints_quotes
    (py : interpreter) (w : world) (line : pystr) (rest : list pystr) :
  py_int py line = Ok 1%Z →
  ∃ quotes,
    result w fetch_crypto_prices = Ok quotes ∧
    length quotes ≤ 5 ∧
    (raised (crypto_try (w crypto_request)) →
       quotes = [] ∧
       session py w (line :: rest) = (Ok (), Console rest crypto_shown)) ∧
    (Forall (λ q, quote_writable py q = true) quotes →
       session py w (line :: rest)
         = (Ok (), Console rest (crypto_shown ++ (quote_line <$> quotes)))) ∧
    (∀ good bad later,
       quotes = good ++ bad :: later →
       Forall (λ q, quote_writable py q = true) good →
       quote_writable py bad = false →
       session py w (line :: rest)
         = (Raise UnicodeEncodeError,
            Console rest (crypto_shown ++ (quote_line <$> good)))).
Proof.
  intros Hint%py_int_Ok.
  assert (Hcases : ∃ quotes,
            result w fetch_crypto_prices = Ok quotes ∧ length quotes ≤ 5 ∧
            (raised (crypto_try (w crypto_request)) → quotes = [])).
  { destruct (crypto_result_cases w) as [Hq | (resp & doc & _ & _ & _ & Hq)].
    - exists []. split_and!; [done|simpl; lia|done].
    - exists (take 5 (find_all (lit "tr") doc) ≫= spec_row).
      split_and!; [done| |].
      + pose proof (length_bind_spec_row (take 5 (find_all (lit "tr") doc))).
        rewrite length_take in *. lia.
      + intros [e He]. rewrite result_fetch_crypto_prices, He in Hq.
        by injection Hq. }
  destruct Hcases as (quotes & Hq & Hlen & Hfail).
  exists quotes. rewrite (session_crypto py w _ _ _ Hint Hq).
  split_and!; [done|done| | |].
  - intros ->%Hfail. by split.
  - intros Hall. by rewrite (for_each_print_quote py _ _ Hall).
  - intros good bad later -> Hgood Hbad.
    by rewrite (for_each_print_quote_stop py _ _ _ _ Hgood Hbad).
Qed.

Lemma crypto_choice_prints_quotes_witness :
  session cpython offline [lit "1"] = (Ok (), Console [] crypto_shown).
Proof.
  destruct (crypto_choice_prints_quotes cpython offline (lit "1") [] eq_refl)
    as (quotes & _ & _ & Hfail & _).
  apply Hfail. by eexists.
Defined.

(** X12.  After choice 3 and a location line that standard output can
    encode, the shell prints the heading and then whatever the adapter
    returned, which is the empty dict whenever the fetch failed in any way.
    It returns when standard output can encode that value; otherwise
    [UnicodeEncodeError] leaves the shell after the heading. *)
Theorem weather_choice_prints_data
    (py : interpreter) (w : world) (line location : pystr) (rest : list pystr) :
  py_int py line = Ok 3%Z →
  writable py (PStr location) = true →
  ∃ data,
    result w (get_latest_weather (Some location)) = Ok data ∧
    (writable py data = true →
       session py w (line :: location :: rest)
         = (Ok (), Console rest (weather_shown location data))) ∧
    (writable py data = false →
       session py w (line :: location :: rest)
         = (Raise UnicodeEncodeError, Console rest (weather_fetched location))) ∧
    (raised (weather_try (w (weather_request location))) → data = PDict []) ∧
    (∀ resp, w (weather_request location) = Ok resp →
       status resp ≠ 200%Z → data = PDict []).
Proof.
  intros Hint%py_int_Ok Hloc.
  destruct (get_latest_weather_returns w (Some location)) as [data Hd].
  exists data. rewrite (session_weather py w _ _ _ _ Hint Hd Hloc).
  split_and!; [done| | | |].
  - intros Hw. by rewrite print_writable by by rewrite writable_data.
  - intros Hw. by rewrite print_unwritable by by rewrite writable_data.
  - intros [e He]. rewrite result_get_latest_weather in Hd. simpl in Hd.
    rewrite He in Hd. by injection Hd.
  - intros resp Hrp Hst.
    destruct (weather_result_cases w (Some location))
      as [Hnil | (resp' & data' & Hrp' & Hst' & _)].
    + rewrite Hnil in Hd. by injection Hd.
    + simpl in Hrp'. rewrite Hrp in Hrp'. by injection Hrp' as <-.
Qed.

(** A 404 reply: the empty dict is printed.  A 200 reply whose body is a
    string holding a lone surrogate: the body is returned as it is and
    cannot be printed. *)
Lemma weather_choice_prints_data_witness :
  session cpython weather_404 [lit "3"; lit "Atlantis"]
    = (Ok (), Console [] (weather_shown (lit "Atlantis") (PDict []))) ∧
  session cpython (always (Response 200 no_markup (Ok (PStr lone_surrogate))))
          [lit "3"; lit "Oslo"]
    = (Raise UnicodeEncodeError, Console [] (weather_fetched (lit "Oslo"))).
Proof.
  split.
  - destruct (weather_choice_prints_data cpython weather_404 (lit "3")
                (lit "Atlantis") [] eq_refl eq_refl)
      as (data & _ & Hok & _ & _ & Hstatus).
    rewrite (Hstatus (Response 404 no_markup (Ok weather_404_body)) eq_refl)
      in Hok; [|done].
    by apply Hok.
  - destruct (weather_choice_prints_data cpython
                (always (Response 200 no_markup (Ok (PStr lone_surrogate))))
                (lit "3") (lit "Oslo") [] eq_refl eq_refl)
      as (data & Hd & _ & Hbad & _).
    injection Hd as <-. by apply Hbad.
Defined.

(** X13.  After choice 2 and a topic line that standard output can encode,
    when anything in the fetch fails the shell prints the heading and
    nothing else, and returns normally: the operator sees an empty list, not
    an error. *)
Theorem news_choice_failed_fetch
    (py : interpreter) (w : world) (line topic : pystr) (rest : list pystr) :
  py_int py line = Ok 2%Z →
  writable py (PStr topic) = true →
  raised (news_try (w (news_request topic (lit "en")))) →
  session py w (line :: topic :: rest)
  = (Ok (), Console rest (news_shown topic)).
Proof.
  intros Hint%py_int_Ok Hw [e He].
  assert (Hr : result w (get_latest_news (Some topic) None) = Ok (PList [])).
  { rewrite result_get_latest_news. simpl. by rewrite He. }
  rewrite (session_news py w _ _ _ _ [] Hint Hr eq_refl Hw). reflexivity.
Qed.

Lemma news_choice_failed_fetch_witness :
  session cpython offline [lit "2"; lit "ai"]
  = (Ok (), Console [] (news_shown (lit "ai"))).
Proof.
  apply (news_choice_failed_fetch cpython offline (lit "2") (lit "ai") []
           eq_refl eq_refl).
  by eexists.
Defined.

(** X14.  After choice 2 and a topic line that standard output can encode,
    the shell prints, after the heading, at most five lines, each of the
    form title, " - ", source name. *)
Theorem news_choice_at_most_five_lines
    (py : interpreter) (w : world) (line topic : pystr) (rest : list pystr) :
  py_int py line = Ok 2%Z →
  writable py (PStr topic) = true →
  ∃ printed,
    trace (session py w (line :: topic :: rest)).2 = news_shown topic ++ printed ∧
    length printed ≤ 5 ∧
    Forall (λ ev, ∃ title source_name,
              ev = Printed [Str title; Lit " - "; Str source_name])
           printed.
Proof.
  intros Hint%py_int_Ok Hw.
  destruct (news_result_iterable w (Some topic) None)
    as (returned & articles & Hr & Hiter).
  rewrite (session_news py w _ _ _ _ _ Hint Hr Hiter Hw).
  destruct (for_each_articles_prefix py articles
              (Console rest (news_shown topic)))
    as (shown & Hprefix & ->).
  exists (article_lines shown). split_and!.
  - done.
  - pose proof (news_items_bounded w _ _ _ _ Hr Hiter).
    pose proof (length_article_lines_le shown).
    apply prefix_length in Hprefix. lia.
  - apply article_lines_printed.
Qed.

Lemma news_choice_at_most_five_lines_witness :
  ∃ printed,
    trace (session cpython (news_of (PList eight_articles))
             [lit "2"; lit "ai"]).2
      = news_shown (lit "ai") ++ printed ∧
    length printed ≤ 5.
Proof.
  destruct (news_choice_at_most_five_lines cpython
              (news_of (PList eight_articles)) (lit "2") (lit "ai") []
              eq_refl eq_refl) as (printed & Htr & Hlen & _).
  by exists printed.
Defined.

(** X15.  When the body is an object whose "articles" is a non-empty string,
    the adapter returns its first five characters, the shell takes the first
    character for an article, and the subscript on it raises [TypeError]:
    after choice 2 the exception leaves the shell with only the heading
    printed. *)
Theorem news_choice_string_articles
    (py : interpreter) (w : world) (line topic : pystr) (rest : list pystr)
    (resp : response) (entries : list (pystr * pyval)) (s : pystr) :
  py_int py line = Ok 2%Z →
  writable py (PStr topic) = true →
  w (news_request topic (lit "en")) = Ok resp →
  json resp = Ok (PDict entries) →
  dict_lookup entries (lit "articles") = Some (PStr s) →
  s ≠ [] →
  result w (get_latest_news (Some topic) None) = Ok (PStr (take 5 s)) ∧
  session py w (line :: topic :: rest)
    = (Raise TypeError, Console rest (news_shown topic)).
Proof.
  intros Hint%py_int_Ok Hw Hrp Hjson Hlook Hne.
  assert (Hr : result w (get_latest_news (Some topic) None)
               = Ok (PStr (take 5 s))).
  { rewrite result_get_latest_news. simpl.
    by rewrite Hrp, (news_try_object _ _ Hjson), Hlook. }
  split; [done|].
  rewrite (session_news py w _ _ _ _ _ Hint Hr eq_refl Hw).
  destruct s as [|c s]; [done|]. reflexivity.
Qed.

Lemma news_choice_string_articles_witness :
  result (news_of (PStr accented)) (get_latest_news (Some (lit "ai")) None)
    = Ok (PStr [104; 233; 108; 108; 111]%N) ∧
  session cpython (news_of (PStr accented)) [lit "2"; lit "ai"]
    = (Raise TypeError, Console [] (news_shown (lit "ai"))).
Proof.
  by apply (news_choice_string_articles cpython (news_of (PStr accented))
              (lit "2") (lit "ai") []
              (Response 200 no_markup (Ok (news_body (PStr accented))))
              [(lit "status", PStr (lit "ok")); (lit "articles", PStr accented)]
              accented).
Defined.

(** * Properties of fetch_crypto_news *)

Section Strip.

Lemma lstrip_head (s : pystr) (c : N) :
  head (lstrip s) = Some c → py_isspace c = false.
Proof.
  induction s as [|a s IH]; [done|].
  cbn [lstrip]. destruct (py_isspace a) eqn:Ha; [done|].
  by intros [= <-].
Qed.

Lemma lstrip_suffix (s : pystr) : lstrip s `suffix_of` s.
Proof.
  induction s as [|a s IH]; [done|].
  cbn [lstrip]. destruct (py_isspace a); [by apply suffix_cons_r|done].
Qed.

(** What [lstrip] removes is whitespace. *)
Lemma lstrip_removed (s : pystr) :
  ∃ before, s = before ++ lstrip s ∧ Forall (λ c, py_isspace c = true) before.
Proof.
  induction s as [|a s (before & IH & Hbefore)]; [by exists []|].
  cbn [lstrip]. destruct (py_isspace a) eqn:Ha.
  - exists (a :: before). split; [by rewrite IH at 1|by constructor].
  - by exists [].
Qed.

Lemma last_suffix (l k : pystr) (c : N) :
  l `suffix_of` k → last l = Some c → last k = Some c.
Proof. intros [pre ->] Hlast. by rewrite last_app, Hlast. Qed.

Lemma lstrip_spaces (s : pystr) :
  Forall (λ c, py_isspace c = true) s → lstrip s = [].
Proof. induction 1 as [|a s Ha _ IH]; [done|]. cbn [lstrip]. by rewrite Ha. Qed.

(** What [strip] leaves neither starts nor ends with whitespace. *)
Lemma strip_trimmed (s : pystr) (c : N) :
  head (str_strip s) = Some c ∨ last (str_strip s) = Some c →
  py_isspace c = false.
Proof.
  unfold str_strip. intros [Hc|Hc].
  - rewrite head_reverse in Hc.
    apply (last_suffix _ _ _ (lstrip_suffix _)) in Hc.
    rewrite last_reverse in Hc. by eapply lstrip_head.
  - rewrite last_reverse in Hc. by eapply lstrip_head.
Qed.

(** What it removes, before and after, is whitespace. *)
Lemma strip_removed (s : pystr) :
  ∃ before after,
    s = before ++ str_strip s ++ after ∧
    Forall (λ c, py_isspace c = true) before ∧
    Forall (λ c, py_isspace c = true) after.
Proof.
  destruct (lstrip_removed s) as (before & Hs & Hbefore).
  destruct (lstrip_removed (reverse (lstrip s))) as (after & Ht & Hafter).
  exists before, (reverse after). split_and!.
  - unfold str_strip. rewrite <- reverse_app, <- Ht, reverse_involutive.
    exact Hs.
  - done.
  - by apply Forall_reverse.
Qed.

Lemma strip_spaces (s : pystr) :
  Forall (λ c, py_isspace c = true) s → str_strip s = [].
Proof. intros Hs. unfold str_strip. by rewrite (lstrip_spaces s Hs). Qed.

End Strip.

Section CryptoNews.

Context (w : world).

Lemma crypto_news_result_cases :
  (fetch_crypto_news w).2 = Ok [] ∨
  ∃ resp doc,
    w crypto_news_request = Ok resp ∧ markup resp = Ok doc ∧
    (fetch_crypto_news w).2
      = Ok ((λ headline, str_strip (text headline))
              <$> take 5 (find_all (lit "h4") doc)).
Proof.
  unfold fetch_crypto_news, crypto_news_try. cbn [snd].
  destruct (w crypto_news_request) as [resp|e]; [|by left]. simpl.
  destruct (markup resp) as [doc|e] eqn:Hdoc; [|by left]. simpl.
  right. by exists resp, doc.
Qed.

End CryptoNews.

(** X16.  Whatever the network does, [fetch_crypto_news] sends its one
    request, raises nothing and returns at most five headlines; when the
    request or the parsing fails it returns the empty list. *)
Theorem fetch_crypto_news_absorbs_failures (w : world) :
  (fetch_crypto_news w).1 = [Sent crypto_news_request] ∧
  ∃ headlines,
    (fetch_crypto_news w).2 = Ok headlines ∧
    length headlines ≤ 5 ∧
    (raised (crypto_news_try (w crypto_news_request)) → headlines = []).
Proof.
  split; [done|].
  destruct (crypto_news_result_cases w) as [Hnil | (resp & doc & Hrp & Hdoc & Hres)].
  - exists []. split_and!; [done|simpl; lia|done].
  - eexists. split_and!; [done| |].
    + rewrite length_fmap, length_take. lia.
    + intros [e He]. unfold crypto_news_try in He.
      rewrite Hrp in He. simpl in He. by rewrite Hdoc in He.
Qed.

Lemma fetch_crypto_news_absorbs_failures_witness :
  (fetch_crypto_news offline).2 = Ok [].
Proof.
  destruct (fetch_crypto_news_absorbs_failures offline)
    as (_ & headlines & -> & _ & Hfail).
  by rewrite (Hfail (ex_intro _ _ eq_refl)).
Defined.

(** X17.  On a page that was fetched and parsed, whatever its status,
    [fetch_crypto_news] returns one headline for each of the first five h4
    elements, in document order: the text of the element with the
    whitespace at both ends removed, where whitespace is what [str.isspace]
    accepts, the no-break space and the other Unicode blanks included.  What
    is removed before and after the headline is whitespace only, and an
    element whose text is all whitespace gives the empty headline. *)
Theorem fetch_crypto_news_headlines (w : world) (resp : response) (doc : node) :
  w crypto_news_request = Ok resp →
  markup resp = Ok doc →
  ∃ headlines,
    (fetch_crypto_news w).2 = Ok headlines ∧
    length headlines = length (find_all (lit "h4") doc) `min` 5 ∧
    (∀ i headline,
       i < 5 → find_all (lit "h4") doc !! i = Some headline →
       headlines !! i = Some (str_strip (text headline)) ∧
       ∃ before after,
         text headline = before ++ str_strip (text headline) ++ after ∧
         Forall (λ c, py_isspace c = true) before ∧
         Forall (λ c, py_isspace c = true) after) ∧
    (∀ i headline,
       i < 5 → find_all (lit "h4") doc !! i = Some headline →
       Forall (λ c, py_isspace c = true) (text headline) →
       headlines !! i = Some []).
Proof.
  intros Hrp Hdoc.
  assert (Hith : ∀ i headline,
            i < 5 → find_all (lit "h4") doc !! i = Some headline →
            ((λ h, str_strip (text h)) <$> take 5 (find_all (lit "h4") doc)) !! i
            = Some (str_strip (text headline))).
  { intros i headline Hi Hlook.
    by rewrite list_lookup_fmap, lookup_take_lt, Hlook. }
  exists ((λ h, str_strip (text h)) <$> take 5 (find_all (lit "h4") doc)).
  split_and!.
  - unfold fetch_crypto_news, crypto_news_try. cbn [snd].
    rewrite Hrp. simpl. by rewrite Hdoc.
  - rewrite length_fmap, length_take. lia.
  - intros i headline Hi Hlook. split; [by apply Hith|apply strip_removed].
  - intros i headline Hi Hlook Hspaces.
    specialize (Hith i headline Hi Hlook).
    by rewrite (strip_spaces _ Hspaces) in Hith.
Qed.

(** Three h4 elements: text around a link, blanks only, and text wrapped in
    no-break spaces. *)
Lemma fetch_crypto_news_headlines_witness :
  ∃ headlines,
    (fetch_crypto_news (always (Response 404 (Ok headlines_page) no_json))).2
      = Ok headlines ∧
    length headlines = 3 ∧
    headlines !! 0 = Some (lit "Bitcoin rallies") ∧
    headlines !! 1 = Some [] ∧
    headlines !! 2 = Some (lit "Bitcoin up").
Proof.
  destruct (fetch_crypto_news_headlines
              (always (Response 404 (Ok headlines_page) no_json))
              (Response 404 (Ok headlines_page) no_json) headlines_page
              eq_refl eq_refl) as (headlines & Hres & Hlen & Hith & Hblank).
  exists headlines. split_and!; [done|done| | |].
  - apply (Hith 0 (h4 [txt "  Bitcoin "; link "rallies"; txt " "]));
      [lia|done].
  - apply (Hblank 1 (h4 [txt "   "])); [lia|done|].
    by repeat constructor.
  - apply (Hith 2 padded_headline); [lia|done].
Defined.

Example headlines_page_headlines :
  (fetch_crypto_news (always (Response 404 (Ok headlines_page) no_json))).2
  = Ok [lit "Bitcoin rallies"; []; lit "Bitcoin up"].
Proof. reflexivity. Qed.

(** X18.  Whatever the network does, no headline that [fetch_crypto_news]
    returns starts or ends with a whitespace character, in the sense of
    [str.isspace]. *)
Theorem fetch_crypto_news_trimmed
    (w : world) (headlines : list pystr) (headline : pystr) (c : N) :
  (fetch_crypto_news w).2 = Ok headlines →
  headline ∈ headlines →
  head headline = Some c ∨ last headline = Some c →
  py_isspace c = false.
Proof.
  intros Hres Hin Hc.
  destruct (crypto_news_result_cases w) as [Hnil | (resp & doc & _ & _ & Hres')].
  - rewrite Hnil in Hres. injection Hres as <-. by apply elem_of_nil in Hin.
  - rewrite Hres' in Hres. injection Hres as <-.
    apply list_elem_of_fmap in Hin as (h & -> & _).
    by eapply strip_trimmed.
Qed.

(** The headline wrapped in no-break spaces comes back starting with "B"
    and ending with "p". *)
Lemma fetch_crypto_news_trimmed_witness :
  py_isspace 66 = false ∧ py_isspace 112 = false.
Proof.
  split.
  - apply (fetch_crypto_news_trimmed
             (always (Response 200 (Ok headlines_page) no_json))
             [lit "Bitcoin rallies"; []; lit "Bitcoin up"]
             (lit "Bitcoin up") 66%N eq_refl).
    + do 2 right. by left.
    + by left.
  - apply (fetch_crypto_news_trimmed
             (always (Response 200 (Ok headlines_page) no_json))
             [lit "Bitcoin rallies"; []; lit "Bitcoin up"]
             (lit "Bitcoin up") 112%N eq_refl).
    + do 2 right. by left.
    + by right.
Defined.
